(** * Verification of the TennisSage analysis-orchestration pipeline

    Shallow embedding of the TypeScript sources under
    [server/services/agentOrchestrator.ts], [server/agents/*.ts],
    [server/storage.ts] and [shared/schema.ts].

    Modelling conventions:
    - JavaScript numbers used as probabilities and confidences are modelled
      as exact rationals [Q]; floating-point rounding is not modelled.
    - JavaScript strings are modelled as [String.string] (ASCII text).
    - A [Map] keyed by strings is a [gmap string _]. *)

From Stdlib Require Import QArith Qminmax Qabs Qround Lqa Ascii String.
From stdpp Require Import base gmap strings list.

Open Scope string_scope.

(* ================================================================= *)
(** ** Factor records (interface [FactorAnalysis]) *)

(** [advantage] is typed as a union of string literals in the source, but at
    run time it holds whatever string the task produced (for instance
    [`player${playerNum}`]), so it is modelled as a string. *)
Record FactorAnalysis := {
  factor : string;
  conclusion : string;
  advantage : string;
  confidence : Q;
  reasoning : string
}.

Record Player := { player_id : string; player_name : string }.

(** Interface [AnalysisResult]; [agentContributions] is carried opaquely and
    omitted. *)
Record AnalysisResult := {
  predictedWinnerId : string;
  winProbability : Q;
  confidenceLevel : Q;
  factorAnalysis : list FactorAnalysis;
  result_reasoning : string
}.

(** [Math.max] and [Math.min] on (non-NaN) numbers. *)
Definition js_max (a b : Q) : Q := if Qlt_le_dec a b then b else a.
Definition js_min (a b : Q) : Q := if Qlt_le_dec b a then b else a.

(* ================================================================= *)
(** ** The fallback majority vote (catch branch of [synthesizePrediction]) *)

Definition favors_player1 (fa : FactorAnalysis) : bool :=
  String.eqb (advantage fa) "player1" || String.eqb (advantage fa) "slight_player1".

Definition favors_player2 (fa : FactorAnalysis) : bool :=
  String.eqb (advantage fa) "player2" || String.eqb (advantage fa) "slight_player2".

(** [factorAnalyses.filter(...).length] *)
Definition player1Advantages (fas : list FactorAnalysis) : nat :=
  length (filter (fun fa => favors_player1 fa = true) fas).

Definition player2Advantages (fas : list FactorAnalysis) : nat :=
  length (filter (fun fa => favors_player2 fa = true) fas).

(** [Math.max(0.5, Math.min(0.9, 0.5 + Math.abs(c1 - c2) * 0.05))] *)
Definition fallbackWinProbability (c1 c2 : nat) : Q :=
  js_max (1#2) (js_min (9#10)
    ((1#2) + inject_Z (Z.abs (Z.of_nat c1 - Z.of_nat c2)) * (1#20)))%Q.

Definition fallbackPrediction (player1 player2 : Player)
    (factorAnalyses : list FactorAnalysis) : AnalysisResult :=
  let c1 := player1Advantages factorAnalyses in
  let c2 := player2Advantages factorAnalyses in
  {| predictedWinnerId :=
       if Nat.ltb c2 c1 then player_id player1 else player_id player2;
     winProbability := fallbackWinProbability c1 c2;
     confidenceLevel := 3#4;
     factorAnalysis := factorAnalyses;
     result_reasoning := "Based on factor analysis: ... fallback majority vote system." |}.

(* ================================================================= *)
(** ** Compiling task outputs into [factorAnalyses] (start of
    [synthesizePrediction]) *)

(** A task output as the orchestrator sees it: an untyped object whose fields
    may be missing ([None] is [undefined]). *)
Record RawResult := {
  raw_factor : option string;
  raw_conclusion : option string;
  raw_advantage : option string;
  raw_confidence : option Q;
  raw_reasoning : option string
}.

(** A value of [analysisResults]: an array of results (each possibly a falsy
    value, [None]) or something that is not an array. *)
Inductive GroupValue :=
  | GroupArray (results : list (option RawResult))
  | GroupOther.

(** JavaScript truthiness of an optional string and the [x || d] idiom. *)
Definition str_truthy (o : option string) : bool :=
  match o with Some s => negb (String.eqb s "") | None => false end.

Definition str_or (o : option string) (d : string) : string :=
  match o with Some s => if String.eqb s "" then d else s | None => d end.

(** A number is falsy when it is [0] (NaN is not modelled). *)
Definition num_or (o : option Q) (d : Q) : Q :=
  match o with Some q => if Qeq_bool q 0 then d else q | None => d end.

Definition compileResult (category : string) (result : option RawResult)
    : list FactorAnalysis :=
  match result with
  | Some r =>
      if str_truthy (raw_conclusion r) then
        [{| factor := str_or (raw_factor r) category;
            conclusion := str_or (raw_conclusion r) "";
            advantage := str_or (raw_advantage r) "none";
            confidence := num_or (raw_confidence r) (1#2);
            reasoning := str_or (raw_reasoning r) "" |}]
      else []
  | None => []
  end.

(** [Object.entries(analysisResults).forEach(...)]: entries in insertion
    order. *)
Definition compileFactorAnalyses (analysisResults : list (string * GroupValue))
    : list FactorAnalysis :=
  flat_map (fun '(category, results) =>
    match results with
    | GroupArray rs => flat_map (compileResult category) rs
    | GroupOther => []
    end) analysisResults.

(** The reply of the synthesis completion call once parsed; [None] stands for
    any error of the primary path (upstream failure or malformed JSON). *)
Record AIResponse := {
  ai_predictedWinner : string;
  ai_winProbability : Q;
  ai_confidenceLevel : Q;
  ai_reasoning : string
}.

Definition synthesizePrediction (player1 player2 : Player)
    (analysisResults : list (string * GroupValue)) (ai : option AIResponse)
    : AnalysisResult :=
  let factorAnalyses := compileFactorAnalyses analysisResults in
  match ai with
  | Some r =>
      {| predictedWinnerId :=
           if String.eqb (ai_predictedWinner r) "player1"
           then player_id player1 else player_id player2;
         winProbability := ai_winProbability r;
         confidenceLevel := ai_confidenceLevel r;
         factorAnalysis := factorAnalyses;
         result_reasoning := ai_reasoning r |}
  | None => fallbackPrediction player1 player2 factorAnalyses
  end.

(* ================================================================= *)
(** ** Analysis task functions *)

(** Outcome of code that may throw. *)
Inductive Outcome (A : Type) :=
  | Ok (a : A)
  | Throw (e : string).
Arguments Ok {A} a.
Arguments Throw {A} e.

Definition obind {A B} (m : Outcome A) (k : A -> Outcome B) : Outcome B :=
  match m with Ok a => k a | Throw e => Throw e end.

Notation "'let!' x := m 'in' k" := (obind m (fun x => k))
  (at level 200, x name, m at level 100, k at level 200).

(** The record every task returns ([StatisticalResult], [MatchupResult], ...;
    [analysis] and [processingTime] omitted). *)
Record TaskResult := {
  agentName : string;
  t_factor : string;
  t_conclusion : string;
  t_advantage : string;
  t_confidence : Q;
  t_reasoning : string
}.

(** What the [try] block of a task computes when it does not throw. *)
Record TaskSuccess := {
  s_conclusion : string;
  s_advantage : string;
  s_confidence : Q;
  s_reasoning : string
}.

(** The constants of a task: its name, its factor label and the record its
    [catch] block returns. *)
Record TaskSpec := {
  ts_agentName : string;
  ts_factor : string;
  ts_err_conclusion : string;
  ts_err_advantage : string;
  ts_err_confidence : Q;
  ts_err_reasoning : string
}.

(** Shape shared by every task:
    [const startTime = Date.now(); try { ... return {...} } catch { return {...} }].
    Nothing but [Date.now()] runs outside the [try]. *)
Definition run_task (t : TaskSpec) (body : Outcome TaskSuccess) : TaskResult :=
  match body with
  | Ok s =>
      {| agentName := ts_agentName t; t_factor := ts_factor t;
         t_conclusion := s_conclusion s; t_advantage := s_advantage s;
         t_confidence := s_confidence s; t_reasoning := s_reasoning s |}
  | Throw _ =>
      {| agentName := ts_agentName t; t_factor := ts_factor t;
         t_conclusion := ts_err_conclusion t; t_advantage := ts_err_advantage t;
         t_confidence := ts_err_confidence t; t_reasoning := ts_err_reasoning t |}
  end.

Definition mk_task (n f c : string) (q : Q) (r : string) : TaskSpec :=
  {| ts_agentName := n; ts_factor := f; ts_err_conclusion := c;
     ts_err_advantage := "none"; ts_err_confidence := q; ts_err_reasoning := r |}.

(** [statisticalAgents.ts] *)
Definition analyzeServePerformance_spec := mk_task "Service Performance Analyst"
  "Factor 3.1 (Serve Performance)" "Analysis Error" 0
  "Unable to analyze serve performance due to data limitations.".
Definition analyzeReturnPerformance_spec := mk_task "Return Performance Analyst"
  "Factor 3.2 (Return Performance)" "Analysis Error" 0
  "Unable to analyze return performance due to data limitations.".
Definition analyzeRallyPatterns_spec := mk_task "Rally & Point Construction Analyst"
  "Factor 3.3 (Rally Patterns)" "Analysis Error" 0
  "Unable to analyze rally patterns due to data limitations.".
Definition analyzePressurePerformance_spec := mk_task "Pressure Statistics Analyst"
  "Factor 3.4 (Clutch Performance 52-week)" "Analysis Error" 0
  "Unable to analyze pressure performance due to data limitations.".
Definition analyzeStatisticalTrends_spec := mk_task "Statistical Trend Analyst"
  "Factor 3.5 (Recent Stat Trends)" "Analysis Error" 0
  "Unable to analyze statistical trends due to data limitations.".
(** [physicalConditionAgents.ts], class [PhysicalConditionAgents] *)
Definition analyzeScheduleBurden_spec := mk_task "Recent Schedule Burden Analyst"
  "Factor 4.1 (Schedule & Fatigue)" "Analysis Error" 0
  "Unable to analyze schedule burden due to data limitations.".
Definition analyzeRecentMatchToll_spec := mk_task "Recent Match Physical Toll Analyst"
  "Factor 4.2 (Last Match Impact)" "Analysis Error" 0
  "Unable to analyze recent match toll due to data limitations.".
Definition analyzeInjuryFitnessStatus_spec := mk_task "Injury & Fitness Status Monitor"
  "Factor 4.3 (Injury & Fitness)" "No Known Issues" (1#2)
  "No confirmed injury or fitness concerns for either player.".
Definition analyzeAgeEndurance_spec := mk_task "Age & Endurance Profiler"
  "Factor 4.4 (Age & Stamina)" "Analysis Error" 0
  "Unable to analyze age and endurance factors due to data limitations.".
(** [physicalConditionAgents.ts], class [RecentPerformanceAgents] *)
Definition analyzeRecentMatches_spec := mk_task "Recent Matches Analyst"
  "Factor 1.1 (Recent Match Results)" "Analysis Error - Insufficient Data" 0
  "Unable to analyze recent form due to data limitations.".
Definition analyzeMomentum_spec := mk_task "Momentum Analyst"
  "Factor 1.2 (Momentum & Consistency)" "Analysis Error - Insufficient Data" 0
  "Unable to analyze momentum due to data limitations.".
Definition analyzeClutchPerformance_spec := mk_task "Clutch Performance Analyst"
  "Factor 1.3 (Clutch Moments Recently)" "Analysis Error - Insufficient Data" 0
  "Unable to analyze clutch performance due to data limitations.".
(** [SurfaceEnvironmentAgents] *)
Definition analyzeSurfaceSuitability_spec := mk_task "Surface Suitability Analyst"
  "Factor 2.1 (Surface Fit)" "Analysis Error" 0
  "Unable to analyze surface suitability due to data limitations.".
Definition analyzeEnvironment_spec := mk_task "Environment Analyst"
  "Factor 2.2 (Conditions & Acclimatization)" "No Clear Advantage" (1#2)
  "Environmental conditions appear neutral for both players.".
(** [MatchupAgents] *)
Definition analyzePlayingStyles_spec := mk_task "Playing Style Profiler"
  "Factor 5.1 (Style Matchup)" "Analysis Error" 0
  "Unable to analyze playing styles due to data limitations.".
Definition analyzeHeadToHead_spec := mk_task "Head-to-Head Analyst"
  "Factor 5.2 (Head-to-Head)" "No Previous Meetings" 0
  "These players have never met before, so head-to-head analysis is based on style matchup only.".
Definition analyzeTacticalBattle_spec := mk_task "Tactical Battle Synthesizer"
  "Factor 5.3 (Projected Tactical Battle)" "Analysis Error" 0
  "Unable to synthesize tactical battle due to data limitations.".
(** [ContextualAgents] *)
Definition analyzeNewsAndContext_spec := mk_task "News Monitor"
  "Factor 6.1 (Recent News & Context)" "No Significant News" (1#2)
  "No significant recent news or contextual factors identified for either player.".
Definition reportDataGapsAndLimitations_spec := mk_task "Data Gaps & Uncertainty Reporter"
  "Factor 6.2 (Data Limitations)" "Limited Data Available" (3#10)
  "Analysis based on limited available data. Results should be interpreted with caution.".

Definition all_tasks : list TaskSpec :=
  [analyzeServePerformance_spec; analyzeReturnPerformance_spec;
   analyzeRallyPatterns_spec; analyzePressurePerformance_spec;
   analyzeStatisticalTrends_spec; analyzeScheduleBurden_spec;
   analyzeRecentMatchToll_spec; analyzeInjuryFitnessStatus_spec;
   analyzeAgeEndurance_spec; analyzeRecentMatches_spec; analyzeMomentum_spec;
   analyzeClutchPerformance_spec; analyzeSurfaceSuitability_spec;
   analyzeEnvironment_spec; analyzePlayingStyles_spec; analyzeHeadToHead_spec;
   analyzeTacticalBattle_spec; analyzeNewsAndContext_spec;
   reportDataGapsAndLimitations_spec].

(* ================================================================= *)
(** ** [extractAdvantage] of [StatisticalAgents]

    [analysis.match(/\*\*Advantage Player (\d|[12])\*\*|\*\*Slight Advantage Player (\d|[12])\*\*|\*\*No Clear Advantage\*\*/i)]
    is a non-global, case-insensitive match: the leftmost position where one
    of the three alternatives matches, alternatives tried in order. *)

(** Case folding of the [i] flag on ASCII text. *)
Definition ascii_lower (c : ascii) : ascii :=
  let n := Ascii.nat_of_ascii c in
  if Nat.leb 65 n && Nat.leb n 90 then Ascii.ascii_of_nat (n + 32) else c.

Definition ci_eq (c d : ascii) : bool := Ascii.eqb (ascii_lower c) (ascii_lower d).

Fixpoint ci_prefix (p s : string) : bool :=
  match p, s with
  | EmptyString, _ => true
  | String a p', String b s' => ci_eq a b && ci_prefix p' s'
  | String _ _, EmptyString => false
  end.

(** [\d] *)
Definition is_digit (c : ascii) : bool :=
  let n := Ascii.nat_of_ascii c in Nat.leb 48 n && Nat.leb n 57.

Definition alt_advantage := "**Advantage Player ".
Definition alt_slight := "**Slight Advantage Player ".
Definition alt_no_clear := "**No Clear Advantage**".

(** [lit (\d|[12])\*\*] at the start of [t]: the captured digit. *)
Definition match_digit_marker (lit t : string) : option ascii :=
  if ci_prefix lit t then
    match String.get (String.length lit) t with
    | Some d =>
        if is_digit d && ci_prefix "**" (substring (String.length lit + 1) 2 t)
        then Some d else None
    | None => None
    end
  else None.

(** The match array: [m[0]], [m[1]], [m[2]] ([None] is [undefined]). *)
Record RegexMatch := { m0 : string; m1 : option string; m2 : option string }.

Definition match_at (t : string) : option RegexMatch :=
  match match_digit_marker alt_advantage t with
  | Some d => Some {| m0 := substring 0 (String.length alt_advantage + 3) t;
                      m1 := Some (String d EmptyString); m2 := None |}
  | None =>
      match match_digit_marker alt_slight t with
      | Some d => Some {| m0 := substring 0 (String.length alt_slight + 3) t;
                          m1 := None; m2 := Some (String d EmptyString) |}
      | None =>
          if ci_prefix alt_no_clear t
          then Some {| m0 := substring 0 (String.length alt_no_clear) t;
                       m1 := None; m2 := None |}
          else None
      end
  end.

(** [String.prototype.match] with a non-global regex: leftmost match. *)
Fixpoint regex_match (s : string) : option RegexMatch :=
  match match_at s with
  | Some m => Some m
  | None => match s with EmptyString => None | String _ s' => regex_match s' end
  end.

(** [String.prototype.includes] (case-sensitive). *)
Fixpoint includes (sub s : string) : bool :=
  String.prefix sub s ||
  match s with EmptyString => false | String _ s' => includes sub s' end.

(** [a || b] on capture groups, then string interpolation of the result. *)
Definition group_or (a b : option string) : string :=
  match a with
  | Some x => if String.eqb x "" then match b with Some y => y | None => "undefined" end else x
  | None => match b with Some y => y | None => "undefined" end
  end.

Record Extracted := { ex_player : string; ex_conclusion : string }.

Definition extractAdvantage (analysis : string) : Extracted :=
  match regex_match analysis with
  | Some m =>
      if includes "No Clear" (m0 m)
      then {| ex_player := "none"; ex_conclusion := "No Clear Advantage" |}
      else
        let playerNum := group_or (m1 m) (m2 m) in
        let isSlight := includes "Slight" (m0 m) in
        {| ex_player := "player" ++ playerNum;
           ex_conclusion := (if isSlight then "Slight " else "") ++
                            "Advantage Player " ++ playerNum |}
  | None => {| ex_player := "none"; ex_conclusion := "No Clear Advantage" |}
  end.

(** The [try] block of [analyzeServePerformance]: gather statistics, call the
    completion client, extract the advantage, compute the confidence. *)
Definition analyzeServePerformance_body (stats : Outcome unit)
    (reply : Outcome string) (conf : Outcome Q) : Outcome TaskSuccess :=
  let! _ := stats in
  let! aiAnalysis := reply in
  let adv := extractAdvantage aiAnalysis in
  let! c := conf in
  Ok {| s_conclusion := ex_conclusion adv; s_advantage := ex_player adv;
        s_confidence := c; s_reasoning := aiAnalysis |}.

Definition analyzeServePerformance (stats : Outcome unit) (reply : Outcome string)
    (conf : Outcome Q) : TaskResult :=
  run_task analyzeServePerformance_spec (analyzeServePerformance_body stats reply conf).

(* ================================================================= *)
(** ** The per-match in-flight guard of [AgentOrchestrator.analyzeMatch]

    [analyzeMatch] is an [async] function: the check of [currentAnalysis]
    and the [set] run synchronously, before its first [await], so no other
    call interleaves between them. A call is modelled by its synchronous
    prefix ([analyzeMatch_enter]); the settling of the run, whatever its
    outcome, by its [finally] block ([analyzeMatch_finally]). *)

Record OrchState := {
  currentAnalysis : gmap string bool;   (** matchId -> isAnalyzing *)
  in_flight : list string               (** match ids of the runs in flight *)
}.

Definition orch_init : OrchState := {| currentAnalysis := ∅; in_flight := [] |}.

Inductive CallResult := Started | Rejected (msg : string).

Definition analyzeMatch_enter (st : OrchState) (matchId : string)
    : CallResult * OrchState :=
  match currentAnalysis st !! matchId with
  | Some true => (Rejected "Match analysis already in progress", st)
  | _ => (Started, {| currentAnalysis := <[matchId := true]> (currentAnalysis st);
                      in_flight := matchId :: in_flight st |})
  end.

(** Remove one occurrence. *)
Fixpoint remove_one (m : string) (l : list string) : list string :=
  match l with
  | [] => []
  | x :: l' => if String.eqb x m then l' else x :: remove_one m l'
  end.

(** The [finally] block of a run in flight for [matchId]. *)
Definition analyzeMatch_finally (st : OrchState) (matchId : string) : OrchState :=
  if existsb (String.eqb matchId) (in_flight st) then
    {| currentAnalysis := delete matchId (currentAnalysis st);
       in_flight := remove_one matchId (in_flight st) |}
  else st.

Inductive OrchEvent := CallAnalyze (matchId : string) | RunSettles (matchId : string).

Definition orch_step (st : OrchState) (ev : OrchEvent) : OrchState :=
  match ev with
  | CallAnalyze m => snd (analyzeMatch_enter st m)
  | RunSettles m => analyzeMatch_finally st m
  end.

Definition orch_run (evs : list OrchEvent) : OrchState := fold_left orch_step evs orch_init.

Definition count_runs (m : string) (l : list string) : nat :=
  length (filter (fun x => x = m) l).

(* ================================================================= *)
(** ** The [AgentStatus] registry *)

Inductive Status := Active | Processing | Idle | StatusError.

(** [accuracy] (a random baseline) is omitted; [lastActivity] is a clock
    value. *)
Record AgentStatus := {
  as_name : string;
  as_type : string;
  status : Status;
  lastActivity : Z;
  totalAnalyses : nat
}.

Definition agentDefinitions : list (string * string) :=
  [("Recent Matches Analyst", "recent_performance");
   ("Momentum Analyst", "recent_performance");
   ("Clutch Performance Analyst", "recent_performance");
   ("Surface Suitability Analyst", "surface_environment");
   ("Environment Analyst", "surface_environment");
   ("Service Performance Analyst", "statistical");
   ("Return Performance Analyst", "statistical");
   ("Rally & Point Construction Analyst", "statistical");
   ("Pressure Statistics Analyst", "statistical");
   ("Statistical Trend Analyst", "statistical");
   ("Workload & Recovery Analyst", "physical_condition");
   ("Injury Status Analyst", "physical_condition");
   ("Endurance Inference Analyst", "physical_condition");
   ("Playing Style Profiler", "matchup");
   ("Head-to-Head Analyst", "matchup");
   ("Tactical Battle Synthesizer", "matchup");
   ("News Monitor", "contextual");
   ("Data Gaps & Uncertainty Reporter", "contextual")].

Definition initializeAgents (now : Z) : gmap string AgentStatus :=
  fold_left (fun m '(n, t) =>
    <[n := {| as_name := n; as_type := t; status := Idle;
              lastActivity := now; totalAnalyses := 0 |}]> m)
    agentDefinitions ∅.

Definition updateAgentStatus (agents : gmap string AgentStatus) (agentName : string)
    (st : Status) (now : Z) : gmap string AgentStatus :=
  match agents !! agentName with
  | Some a =>
      <[agentName := {| as_name := as_name a; as_type := as_type a; status := st;
                        lastActivity := now;
                        totalAnalyses := match st with
                                         | Processing => S (totalAnalyses a)
                                         | _ => totalAnalyses a
                                         end |}]> agents
  | None => agents
  end.

(** [runAgentAnalysis]: the status update before the task runs, and the one
    after it settles (success or thrown error). *)
Definition runAgentAnalysis_start (agents : gmap string AgentStatus)
    (agentName : string) (now : Z) : gmap string AgentStatus :=
  updateAgentStatus agents agentName Processing now.

Definition runAgentAnalysis_settle (agents : gmap string AgentStatus)
    (agentName : string) (success : bool) (now : Z) : gmap string AgentStatus :=
  updateAgentStatus agents agentName (if success then Active else StatusError) now.

(** Events on the registry: a task of the given name starts, or settles. *)
Inductive RegistryEvent :=
  | TaskStarts (agentName : string) (now : Z)
  | TaskSettles (agentName : string) (success : bool) (now : Z).

Definition registry_step (agents : gmap string AgentStatus) (ev : RegistryEvent)
    : gmap string AgentStatus :=
  match ev with
  | TaskStarts n t => runAgentAnalysis_start agents n t
  | TaskSettles n ok t => runAgentAnalysis_settle agents n ok t
  end.

(** The names [runAgentAnalyses] passes to [runAgentAnalysis], in order. *)
Definition orchestrated_task_names : list string :=
  ["Recent Matches Analyst"; "Momentum Analyst"; "Clutch Performance Analyst";
   "Surface Suitability Analyst"; "Environment Analyst";
   "Service Performance Analyst"; "Return Performance Analyst";
   "Rally & Point Construction Analyst"; "Pressure Statistics Analyst";
   "Statistical Trend Analyst";
   "Workload & Recovery Analyst"; "Recent Match Physical Toll Analyst";
   "Injury Status Analyst"; "Endurance Inference Analyst";
   "Playing Style Profiler"; "Head-to-Head Analyst"; "Tactical Battle Synthesizer";
   "News Monitor"; "Data Gaps & Uncertainty Reporter"].

(* ================================================================= *)
(** ** Group 5 of [runAgentAnalyses]: the match-up tasks *)

(** Arguments passed to a task function. A parameter without an argument is
    [undefined] in JavaScript. *)
Inductive JsArg :=
  | ArgMatch | ArgPlayer1 | ArgPlayer2
  | ArgResult (r : TaskResult)
  | ArgUndefined.

Definition arg (args : list JsArg) (i : nat) : JsArg := nth i args ArgUndefined.

(** [analyzeTacticalBattle(match, player1, player2, styleAnalysis, h2hAnalysis)]
    stores its last two parameters in [analysisData.styleContext] and
    [analysisData.h2hContext]. *)
Record TacticalContext := { styleContext : JsArg; h2hContext : JsArg }.

Definition analyzeTacticalBattle_context (args : list JsArg) : TacticalContext :=
  {| styleContext := arg args 3; h2hContext := arg args 4 |}.

(** Observable events of the group: a task function is called with its
    arguments; its promise settles. *)
Inductive TraceEvent :=
  | TaskCalled (agentName : string) (args : list JsArg)
  | TaskDone (agentName : string).

(** A state monad over the event trace. *)
Definition TraceM (A : Type) := list TraceEvent -> A * list TraceEvent.

Definition tret {A} (a : A) : TraceM A := fun tr => (a, tr).
Definition tbind {A B} (m : TraceM A) (k : A -> TraceM B) : TraceM B :=
  fun tr => let '(a, tr') := m tr in k a tr'.

(** [await this.runAgentAnalysis(name, () => f(...args))]: the task is
    called, and the [await] resumes only once it has settled. [exec] gives
    the result of each task function on its arguments. *)
Definition await_task (exec : string -> list JsArg -> TaskResult)
    (agentName : string) (args : list JsArg) : TraceM TaskResult :=
  fun tr => (exec agentName args, app tr [TaskCalled agentName args; TaskDone agentName]).

Definition runMatchupGroup (exec : string -> list JsArg -> TaskResult)
    : TraceM (list TaskResult) :=
  tbind (await_task exec "Playing Style Profiler" [ArgMatch; ArgPlayer1; ArgPlayer2])
    (fun r1 =>
  tbind (await_task exec "Head-to-Head Analyst" [ArgMatch; ArgPlayer1; ArgPlayer2])
    (fun r2 =>
  tbind (await_task exec "Tactical Battle Synthesizer" [ArgMatch; ArgPlayer1; ArgPlayer2])
    (fun r3 => tret [r1; r2; r3]))).

(* ================================================================= *)
(** ** Persistence of predictions ([DatabaseStorage]) *)

(** [InsertPrediction] as the route [POST /api/predictions/analyze] builds it;
    the decimal columns receive [number.toString()], modelled as the exact
    rational value. *)
Record InsertPrediction := {
  ip_matchId : string;
  ip_predictedWinnerId : string;
  ip_winProbability : Q;
  ip_confidenceLevel : Q;
  ip_factorAnalysis : list FactorAnalysis;
  ip_reasoning : string
}.

(** A row of table [predictions]. The columns [win_probability] and
    [confidence_level] are [decimal(precision 5, scale 2)]: stored as a
    number of hundredths. [factor_analysis] is [jsonb]. *)
Record PredictionRow := {
  p_id : nat;
  p_matchId : string;
  p_predictedWinnerId : string;
  p_winProbability : Z;
  p_confidenceLevel : Z;
  p_factorAnalysis : list FactorAnalysis;
  p_reasoning : string
}.

Record Db := { predictions : list PredictionRow; next_id : nat }.

(** Coercion of a value to [numeric(5, 2)]: rounded to two fractional
    digits, half away from zero; an error when the result needs more than
    5 digits. *)
Definition round_hundredths (q : Q) : Z :=
  let n := (Qnum q * 100)%Z in
  let d := Zpos (Qden q) in
  if Z.leb 0 n then ((2 * n + d) / (2 * d))%Z
  else (- ((- 2 * n + d) / (2 * d)))%Z.

Definition numeric_5_2 (q : Q) : Outcome Z :=
  let r := round_hundredths q in
  if Z.ltb (Z.abs r) 100000 then Ok r else Throw "numeric field overflow".

(** The value a stored [numeric(5, 2)] stands for. *)
Definition numeric_value (z : Z) : Q := (inject_Z z / 100)%Q.

(** [db.insert(predictions).values(prediction).returning()] *)
Definition createPrediction (db : Db) (ip : InsertPrediction)
    : Outcome (PredictionRow * Db) :=
  let! wp := numeric_5_2 (ip_winProbability ip) in
  let! cl := numeric_5_2 (ip_confidenceLevel ip) in
  let row := {| p_id := next_id db; p_matchId := ip_matchId ip;
                p_predictedWinnerId := ip_predictedWinnerId ip;
                p_winProbability := wp; p_confidenceLevel := cl;
                p_factorAnalysis := ip_factorAnalysis ip;
                p_reasoning := ip_reasoning ip |} in
  Ok (row, {| predictions := app (predictions db) [row]; next_id := S (next_id db) |}).

(** [const [prediction] = await db.select().from(predictions)
      .where(eq(predictions.matchId, matchId)); return prediction || undefined]
    The query has no [ORDER BY]; the model takes the rows in insertion order,
    which only matters when several rows share the match id. *)
Definition getPredictionByMatch (db : Db) (matchId : string) : option PredictionRow :=
  find (fun r => String.eqb (p_matchId r) matchId) (predictions db).

(** A task's returned record as the orchestrator's untyped view of it. *)
Definition as_raw (t : TaskResult) : RawResult :=
  {| raw_factor := Some (t_factor t); raw_conclusion := Some (t_conclusion t);
     raw_advantage := Some (t_advantage t); raw_confidence := Some (t_confidence t);
     raw_reasoning := Some (t_reasoning t) |}.

(* ================================================================= *)
(** ** Vocabulary for stating properties of [extractAdvantage] *)

(** The suffix of [s] from position [n]. *)
Fixpoint str_drop (n : nat) (s : string) : string :=
  match n, s with
  | 0, _ => s
  | S n', String _ s' => str_drop n' s'
  | S _, EmptyString => EmptyString
  end.

(** One of the three markers, letters compared case-insensitively, starts
    [u]. *)
Definition ci_marker_at (u : string) : Prop :=
  (exists d, is_digit d = true /\
     (ci_prefix ("**Advantage Player " ++ String d "**") u = true \/
      ci_prefix ("**Slight Advantage Player " ++ String d "**") u = true)) \/
  ci_prefix "**No Clear Advantage**" u = true.

(* ================================================================= *)
(** ** Sample inputs *)


Definition P1 : Player := {| player_id := "p1"; player_name := "Player One" |}.
Definition P2 : Player := {| player_id := "p2"; player_name := "Player Two" |}.

Definition fa_with (adv : string) : FactorAnalysis :=
  {| factor := "f"; conclusion := "c"; advantage := adv; confidence := 1#2;
     reasoning := "" |}.

Definition sample_insert (wp : Q) : InsertPrediction :=
  {| ip_matchId := "m1"; ip_predictedWinnerId := "p1"; ip_winProbability := wp;
     ip_confidenceLevel := 3#4; ip_factorAnalysis := [fa_with "player1"];
     ip_reasoning := "r" |}.

Definition empty_db : Db := {| predictions := []; next_id := 0 |}.

(* ================================================================= *)
(** ** Method calls on the service objects

    A call [obj.name(args)] reads the member [name] of the object and of
    its prototype chain. When there is no such member, the value read is
    [undefined] and the call throws a [TypeError] (after evaluating the
    arguments, which are plain variables at every call site modelled here).
    TypeScript's [private] is erased at run time: private methods are
    ordinary members. *)

Definition object_prototype_members : list string :=
  ["constructor"; "hasOwnProperty"; "isPrototypeOf"; "propertyIsEnumerable";
   "toLocaleString"; "toString"; "valueOf"; "__defineGetter__";
   "__defineSetter__"; "__lookupGetter__"; "__lookupSetter__"; "__proto__"].

Definition has_method (methods : list string) (name : string) : bool :=
  existsb (String.eqb name) (app methods object_prototype_members).

Definition call_method {A} (obj name : string) (methods : list string)
    (call : Outcome A) : Outcome A :=
  if has_method methods name then call
  else Throw ("TypeError: " ++ obj ++ "." ++ name ++ " is not a function").

(** Members of [OpenAIService] instances ([getInstance] is static). *)
Definition openAIService_methods : list string :=
  ["analyzeWithGPT4"; "analyzeFactorWithSpecializedPrompt";
   "synthesizeFinalPrediction"; "extractInsightsFromNews"; "extractBulletPoints"].

(** Members of [DatabaseStorage] instances. *)
Definition storage_methods : list string :=
  ["getUser"; "getUserByUsername"; "createUser";
   "getPlayer"; "getPlayerByName"; "createPlayer"; "updatePlayer";
   "getAllPlayers"; "getTopPlayers";
   "getTournament"; "createTournament"; "getActiveTournaments";
   "getTournamentsByDateRange";
   "getMatch"; "createMatch"; "updateMatch"; "getUpcomingMatches";
   "getMatchesByPlayer"; "getMatchesByTournament"; "getRecentMatches";
   "getPrediction"; "createPrediction"; "getPredictionByMatch";
   "getRecentPredictions";
   "getPlayerStats"; "createPlayerStats"; "updatePlayerStats";
   "getPlayerStatsBySurface";
   "getAgentAnalysis"; "createAgentAnalysis"; "getAnalysisByMatch";
   "getAnalysisByAgent";
   "getHeadToHead"; "createHeadToHead"; "updateHeadToHead";
   "getNewsArticle"; "createNewsArticle"; "getNewsByPlayer"; "getRecentNews";
   "getInjuryNews"].

Definition recentPerformanceAgents_methods : list string :=
  ["analyzeRecentMatches"; "analyzeMomentum"; "analyzeClutchPerformance";
   "calculateRecentStats"; "calculateSurfaceStats"; "calculateOpponentQuality";
   "determineFormAdvantage"; "calculateMomentum"; "determineMomentumAdvantage";
   "scoreMomentum"; "analyzeClutchStats"; "extractClutchMoments"; "isClutchMatch";
   "determineClutchAdvantage"; "generateRecentFormReasoning";
   "generateMomentumReasoning"; "generateClutchReasoning"].

Definition surfaceEnvironmentAgents_methods : list string :=
  ["analyzeSurfaceSuitability"; "analyzeEnvironment"; "getPlayerSurfaceStats";
   "getCourtPaceInfo"; "getVenueData"; "getWeatherData"; "getPlayerConditionStats";
   "extractAdvantage"; "calculateSurfaceConfidence"; "calculateEnvironmentConfidence"].

Definition statisticalAgents_methods : list string :=
  ["analyzeServePerformance"; "analyzeReturnPerformance"; "analyzeRallyPatterns";
   "analyzePressurePerformance"; "analyzeStatisticalTrends"; "getPlayerServeStats";
   "getPlayerReturnStats"; "getPlayerRallyStats"; "getPlayerPressureStats";
   "analyzePlayerTrends"; "extractAdvantage"; "calculateServeConfidence";
   "calculateReturnConfidence"; "calculateRallyConfidence";
   "calculatePressureConfidence"; "calculateTrendConfidence"].

Definition physicalConditionAgents_methods : list string :=
  ["analyzeScheduleBurden"; "analyzeRecentMatchToll"; "analyzeInjuryFitnessStatus";
   "analyzeAgeEndurance"; "analyzeRecentSchedule"; "calculateConsecutiveMatchDays";
   "analyzeLastMatchPhysicalDemands"; "getPlayerPhysicalStatus";
   "analyzeEnduranceProfile"; "determineCareerStage"; "isInPhysicalPrime";
   "extractAdvantage"; "calculateScheduleConfidence"; "calculateMatchTollConfidence";
   "calculateFitnessConfidence"; "calculateEnduranceConfidence"].

Definition matchupAgents_methods : list string :=
  ["analyzePlayingStyles"; "analyzeHeadToHead"; "analyzeTacticalBattle";
   "profilePlayingStyle"; "calculatePlayingStyleMetrics";
   "describeStyleCharacteristics"; "getHeadToHeadMatches"; "calculateH2HStats";
   "analyzePsychologicalFactors"; "analyzeTacticalApproach"; "generateGameplan";
   "identifyKeyBattlegrounds"; "extractAdvantage"; "calculateStyleConfidence";
   "calculateH2HConfidence"; "calculateTacticalConfidence"].

Definition contextualAgents_methods : list string :=
  ["analyzeNewsAndContext"; "reportDataGapsAndLimitations"; "gatherPlayerNews";
   "identifyDataGaps"; "assessUncertainties"; "calculateDataCoverage";
   "calculateReliabilityScore"; "generateLimitationsReport"; "extractAdvantage";
   "calculateContextualConfidence"].

(** [synthesizePrediction] with its call
    [await openAIService.generatePrediction(synthesisPrompt)];
    [generatePrediction] is what that call would give if the member
    existed. *)
Definition synthesizePrediction_call (player1 player2 : Player)
    (analysisResults : list (string * GroupValue))
    (generatePrediction : Outcome AIResponse) : AnalysisResult :=
  synthesizePrediction player1 player2 analysisResults
    (match call_method "openAIService" "generatePrediction" openAIService_methods
             generatePrediction with
     | Ok r => Some r
     | Throw _ => None
     end).

(** The record a task's [catch] block returns. *)
Definition catch_record (t : TaskSpec) : TaskResult :=
  {| agentName := ts_agentName t; t_factor := ts_factor t;
     t_conclusion := ts_err_conclusion t; t_advantage := ts_err_advantage t;
     t_confidence := ts_err_confidence t; t_reasoning := ts_err_reasoning t |}.

(** A row of [matches] as the agent helpers read it. [winner] and
    [completedTime] are read by some helpers but are not columns of the
    table: on rows from storage they are [undefined] ([None]). *)
Record MatchRow := {
  mr_player1Id : string;
  mr_player2Id : string;
  mr_scheduledTime : option Z;   (** milliseconds; [None] is [null] *)
  mr_winnerId : option string;
  mr_score : option string;
  mr_surface : string;
  mr_winner : option string
}.

(** The first statement of the [try] blocks of six tasks reaches a storage
    member that [DatabaseStorage] does not have:
    [analyzeRecentSchedule], [analyzeLastMatchPhysicalDemands],
    [analyzeEnduranceProfile], [getPlayerSurfaceStats] and
    [profilePlayingStyle] call [storage.getPlayerMatches(...)], and
    [getHeadToHeadMatches] calls [storage.getMatches()]. [fetched] is what
    the call would give if the member existed, [rest_of_try] the remainder
    of the [try] block. *)
Definition storage_call {A} (name : string) (fetched : Outcome A) : Outcome A :=
  call_method "storage" name storage_methods fetched.

Definition analyzeScheduleBurden (fetched : Outcome (list MatchRow))
    (rest_of_try : list MatchRow -> Outcome TaskSuccess) : TaskResult :=
  run_task analyzeScheduleBurden_spec
    (let! matches := storage_call "getPlayerMatches" fetched in rest_of_try matches).

Definition analyzeRecentMatchToll (fetched : Outcome (list MatchRow))
    (rest_of_try : list MatchRow -> Outcome TaskSuccess) : TaskResult :=
  run_task analyzeRecentMatchToll_spec
    (let! matches := storage_call "getPlayerMatches" fetched in rest_of_try matches).

Definition analyzeAgeEndurance (fetched : Outcome (list MatchRow))
    (rest_of_try : list MatchRow -> Outcome TaskSuccess) : TaskResult :=
  run_task analyzeAgeEndurance_spec
    (let! matches := storage_call "getPlayerMatches" fetched in rest_of_try matches).

Definition analyzeSurfaceSuitability (fetched : Outcome (list MatchRow))
    (rest_of_try : list MatchRow -> Outcome TaskSuccess) : TaskResult :=
  run_task analyzeSurfaceSuitability_spec
    (let! matches := storage_call "getPlayerMatches" fetched in rest_of_try matches).

Definition analyzePlayingStyles (fetched : Outcome (list MatchRow))
    (rest_of_try : list MatchRow -> Outcome TaskSuccess) : TaskResult :=
  run_task analyzePlayingStyles_spec
    (let! matches := storage_call "getPlayerMatches" fetched in rest_of_try matches).

Definition analyzeHeadToHead (fetched : Outcome (list MatchRow))
    (rest_of_try : list MatchRow -> Outcome TaskSuccess) : TaskResult :=
  run_task analyzeHeadToHead_spec
    (let! allMatches := storage_call "getMatches" fetched in rest_of_try allMatches).

(* ================================================================= *)
(** ** [runAgentAnalyses] and [analyzeMatch] on the registry *)

(** Computations that may throw and update the [AgentStatus] registry. *)
Definition Reg (A : Type) :=
  gmap string AgentStatus -> Outcome A * gmap string AgentStatus.

Definition reg_ret {A} (a : A) : Reg A := fun ag => (Ok a, ag).

Definition reg_bind {A B} (m : Reg A) (k : A -> Reg B) : Reg B :=
  fun ag => match m ag with
            | (Ok a, ag') => k a ag'
            | (Throw e, ag') => (Throw e, ag')
            end.

Definition reg_lift {A} (o : Outcome A) : Reg A := fun ag => (o, ag).

(** [runAgentAnalysis(agentName, analysisFunction)]; [analysisFunction] is
    the outcome of calling the task. *)
Definition runAgentAnalysis (now : Z) (agentName : string)
    (analysisFunction : Outcome TaskResult) : Reg TaskResult :=
  fun ag =>
    let ag1 := runAgentAnalysis_start ag agentName now in
    match analysisFunction with
    | Ok r => (Ok r, runAgentAnalysis_settle ag1 agentName true now)
    | Throw e => (Throw e, runAgentAnalysis_settle ag1 agentName false now)
    end.

(** [await Promise.all([...])] over [runAgentAnalysis] promises: every
    promise runs to its end; the result is the array of values, or the
    first rejection. Rejections are taken in array order; in the groups
    below the only rejections are [TypeError]s thrown synchronously when the
    promises are created, which happens in array order. The status updates
    of different promises touch different keys. *)
Fixpoint promise_all {A} (ms : list (Reg A)) : Reg (list A) :=
  match ms with
  | [] => reg_ret []
  | m :: ms' => fun ag =>
      let '(o, ag1) := m ag in
      let '(os, ag2) := promise_all ms' ag1 in
      (match o, os with
       | Throw e, _ => Throw e
       | Ok _, Throw e => Throw e
       | Ok r, Ok rs => Ok (r :: rs)
       end, ag2)
  end.

(** A call [obj.method(match, player1, player2)] of a task function.
    [exec] gives what an existing task method returns; task functions catch
    every error of their [try] block, so their promises do not reject. *)
Definition agent_task (exec : string -> TaskResult) (obj : string)
    (methods : list string) (method : string) : Outcome TaskResult :=
  call_method obj method methods (Ok (exec method)).

Definition runAgentAnalyses (exec : string -> TaskResult) (now : Z)
    : Reg (list (string * list TaskResult)) :=
  let run name obj methods method :=
    runAgentAnalysis now name (agent_task exec obj methods method) in
  reg_bind (promise_all
    [run "Recent Matches Analyst" "recentPerformanceAgents"
         recentPerformanceAgents_methods "analyzeRecentMatches";
     run "Momentum Analyst" "recentPerformanceAgents"
         recentPerformanceAgents_methods "analyzeMomentum";
     run "Clutch Performance Analyst" "recentPerformanceAgents"
         recentPerformanceAgents_methods "analyzeClutchPerformance"])
  (fun recentPerformanceResults =>
  reg_bind (promise_all
    [run "Surface Suitability Analyst" "surfaceEnvironmentAgents"
         surfaceEnvironmentAgents_methods "analyzeSurfaceSuitability";
     run "Environment Analyst" "surfaceEnvironmentAgents"
         surfaceEnvironmentAgents_methods "analyzeEnvironment"])
  (fun surfaceEnvironmentResults =>
  reg_bind (promise_all
    [run "Service Performance Analyst" "statisticalAgents"
         statisticalAgents_methods "analyzeServePerformance";
     run "Return Performance Analyst" "statisticalAgents"
         statisticalAgents_methods "analyzeReturnPerformance";
     run "Rally & Point Construction Analyst" "statisticalAgents"
         statisticalAgents_methods "analyzeRallyPatterns";
     run "Pressure Statistics Analyst" "statisticalAgents"
         statisticalAgents_methods "analyzePressurePerformance";
     run "Statistical Trend Analyst" "statisticalAgents"
         statisticalAgents_methods "analyzeStatisticalTrends"])
  (fun statisticalResults =>
  reg_bind (promise_all
    [run "Workload & Recovery Analyst" "physicalConditionAgents"
         physicalConditionAgents_methods "analyzeScheduleBurden";
     run "Recent Match Physical Toll Analyst" "physicalConditionAgents"
         physicalConditionAgents_methods "analyzeRecentMatchToll";
     run "Injury Status Analyst" "physicalConditionAgents"
         physicalConditionAgents_methods "analyzeInjuryFitnessStatus";
     run "Endurance Inference Analyst" "physicalConditionAgents"
         physicalConditionAgents_methods "analyzeAgeEndurance"])
  (fun physicalResults =>
  reg_bind (run "Playing Style Profiler" "matchupAgents"
                matchupAgents_methods "analyzePlayingStyles") (fun m1 =>
  reg_bind (run "Head-to-Head Analyst" "matchupAgents"
                matchupAgents_methods "analyzeHeadToHead") (fun m2 =>
  reg_bind (run "Tactical Battle Synthesizer" "matchupAgents"
                matchupAgents_methods "analyzeTacticalBattle") (fun m3 =>
  reg_bind (promise_all
    [run "News Monitor" "contextualAgents" contextualAgents_methods "analyzeNews";
     run "Data Gaps & Uncertainty Reporter" "contextualAgents"
         contextualAgents_methods "analyzeDataGaps"])
  (fun contextualResults =>
  reg_ret [("recentPerformance", recentPerformanceResults);
           ("surfaceEnvironment", surfaceEnvironmentResults);
           ("statistical", statisticalResults);
           ("physical", physicalResults);
           ("matchup", [m1; m2; m3]);
           ("contextual", contextualResults)])))))))).

(** [analysisResults] as [synthesizePrediction] sees it. *)
Definition as_groups (rs : list (string * list TaskResult)) : list (string * GroupValue) :=
  map (fun '(c, l) => (c, GroupArray (map (fun r => Some (as_raw r)) l))) rs.

(** The [try] block of [analyzeMatch], after the in-flight guard:
    [players] is the outcome of the two [storage.getPlayer] lookups,
    [generatePrediction] that of the completion call if the member existed,
    [stored] that of [storeAgentAnalyses]. *)
Definition analyzeMatch_body (players : Outcome (option Player * option Player))
    (exec : string -> TaskResult) (now : Z) (generatePrediction : Outcome AIResponse)
    (stored : Outcome unit) : Reg AnalysisResult :=
  reg_bind (reg_lift players) (fun '(p1, p2) =>
    match p1, p2 with
    | Some player1, Some player2 =>
        reg_bind (runAgentAnalyses exec now) (fun analysisResults =>
        let finalPrediction :=
          synthesizePrediction_call player1 player2 (as_groups analysisResults)
            generatePrediction in
        reg_bind (reg_lift stored) (fun _ => reg_ret finalPrediction))
    | _, _ => reg_lift (Throw "Player data not found")
    end).

(* ================================================================= *)
(** ** Route [POST /api/predictions/analyze] *)

Inductive Response :=
  | RespJson (p : PredictionRow)
  | RespError (code : nat) (error : string).

(** [req.body.matchId] ([None] when absent; the empty string is falsy),
    the truthiness of [forceRefresh] (default [false]), whether
    [storage.getMatch] finds the match, and the outcome of
    [agentOrchestrator.analyzeMatch(match)]. *)
Definition analyzePredictionRoute (db : Db) (matchId : option string)
    (forceRefresh : bool) (match_found : bool) (analysis : Outcome AnalysisResult)
    : Response * Db :=
  match matchId with
  | None => (RespError 400 "Match ID is required", db)
  | Some m =>
      if String.eqb m "" then (RespError 400 "Match ID is required", db) else
      match (if forceRefresh then None else getPredictionByMatch db m) with
      | Some existingPrediction => (RespJson existingPrediction, db)
      | None =>
          if negb match_found then (RespError 404 "Match not found", db) else
          match analysis with
          | Throw _ => (RespError 500 "Failed to analyze match", db)
          | Ok analysisResult =>
              match createPrediction db
                      {| ip_matchId := m;
                         ip_predictedWinnerId := predictedWinnerId analysisResult;
                         ip_winProbability := winProbability analysisResult;
                         ip_confidenceLevel := confidenceLevel analysisResult;
                         ip_factorAnalysis := factorAnalysis analysisResult;
                         ip_reasoning := result_reasoning analysisResult |} with
              | Ok (prediction, db') => (RespJson prediction, db')
              | Throw _ => (RespError 500 "Failed to analyze match", db)
              end
          end
      end
  end.


(* ================================================================= *)
(** ** Confidence calculators of [StatisticalAgents]

    The statistics come from the [getPlayer*Stats] helpers, whose numbers
    are all defined (drawn at random). *)

(** [a < b] and [a > b] on numbers. *)
Definition js_lt (a b : Q) : bool := if Qlt_le_dec a b then true else false.
Definition js_gt (a b : Q) : bool := js_lt b a.

Record ServeStats := {
  firstServePercentage : Q;
  firstServeWinRate : Q;
  secondServeWinRate : Q;
  aceRate : Q;
  doubleFaultRate : Q;
  serviceGamesHeld : Q;
  serve_breakPointsSaved : Q
}.

(** [const metrics = ['firstServeWinRate', 'serviceGamesHeld', 'aceRate']],
    each read as [stats[metric]]. *)
Definition serve_metrics : list (ServeStats -> Q) :=
  [firstServeWinRate; serviceGamesHeld; aceRate].

Definition calculateServeConfidence (stats1 stats2 : ServeStats) : Q :=
  let advantages :=
    length (List.filter (fun metric => js_gt (Qabs (metric stats1 - metric stats2)) (1#10))
                   serve_metrics) in
  js_min (9#10) ((1#2) + inject_Z (Z.of_nat advantages) * (15#100)).

Record ReturnStats := {
  firstServeReturnWinRate : Q;
  secondServeReturnWinRate : Q;
  breakPointsConverted : Q;
  returnGamesWon : Q;
  averageBreaksPerMatch : Q
}.

Definition calculateReturnConfidence (stats1 stats2 : ReturnStats) : Q :=
  let diff := Qabs (breakPointsConverted stats1 - breakPointsConverted stats2) in
  js_min (85#100) ((1#2) + diff).

Record RallyStats := {
  avgRallyLength : Q;
  shortRallyWinRate : Q;
  longRallyWinRate : Q;
  winnersToErrors : Q;
  netApproachSuccess : Q
}.

Definition calculateRallyConfidence (stats1 stats2 : RallyStats) : Q :=
  let w2eDiff := Qabs (winnersToErrors stats1 - winnersToErrors stats2) in
  js_min (8#10) ((1#2) + w2eDiff * (3#10)).

Record WinLoss := { wl_wins : Z; wl_losses : Z }.

Record PressureStats := {
  tiebreakWinRate : Q;
  decidingSetWinRate : Q;
  breakPointSaveRate : Q;
  breakPointConversionRate : Q;
  fifthSetRecord : WinLoss
}.

Definition calculatePressureConfidence (stats1 stats2 : PressureStats) : Q :=
  let tiebreakDiff := Qabs (tiebreakWinRate stats1 - tiebreakWinRate stats2) in
  js_min (85#100) ((1#2) + tiebreakDiff * (3#2)).

Record RecentTrend := {
  serveImprovement : Q;
  returnImprovement : Q;
  winRateChange : Q
}.

Record PlayerTrends := {
  recent : RecentTrend;
  currentWinRate : Q;
  previousWinRate : Q;
  improving : list string;
  declining : list string
}.

Definition calculateTrendConfidence (trends1 trends2 : PlayerTrends) : Q :=
  let trend1 := winRateChange (recent trends1) in
  let trend2 := winRateChange (recent trends2) in
  if (js_gt trend1 (1#10) && js_lt trend2 (-1#10)) ||
     (js_lt trend1 (-1#10) && js_gt trend2 (1#10))
  then 8#10 else 6#10.

(* ================================================================= *)
(** ** [analyzeInjuryFitnessStatus] of [PhysicalConditionAgents] *)

Record PhysicalStatus := {
  recentInjuries : list string;
  ps_fitnessLevel : string;
  recentRetirements : Z;
  medicalTimeouts : Z;
  notes : list string
}.

(** [getPlayerPhysicalStatus(player)]: [fitnessLevel] is
    [player.fitnessLevel] ([None] when undefined) and [random] the value of
    [Math.random()]. *)
Definition getPlayerPhysicalStatus (fitnessLevel : option string) (random : Q)
    : PhysicalStatus :=
  {| recentInjuries := [];
     ps_fitnessLevel := str_or fitnessLevel "good";
     recentRetirements := 0;
     medicalTimeouts := Qfloor (random * 2);
     notes := [] |}.

Definition calculateFitnessConfidence (status1 status2 : PhysicalStatus) : Q :=
  if Nat.ltb 0 (length (recentInjuries status1)) ||
     Nat.ltb 0 (length (recentInjuries status2)) then 9#10
  else if Z.ltb 0 (medicalTimeouts status1) || Z.ltb 0 (medicalTimeouts status2)
  then 3#4
  else 1#2.

(** The task: [fit1], [fit2] the players' [fitnessLevel], [random1],
    [random2] the draws of the two [getPlayerPhysicalStatus] calls, [reply]
    the outcome of the completion call. *)
Definition analyzeInjuryFitnessStatus (fit1 fit2 : option string)
    (random1 random2 : Q) (reply : Outcome string) : TaskResult :=
  run_task analyzeInjuryFitnessStatus_spec
    (let player1Status := getPlayerPhysicalStatus fit1 random1 in
     let player2Status := getPlayerPhysicalStatus fit2 random2 in
     let! aiAnalysis := reply in
     let advantage := extractAdvantage aiAnalysis in
     let confidence := calculateFitnessConfidence player1Status player2Status in
     Ok {| s_conclusion := ex_conclusion advantage; s_advantage := ex_player advantage;
           s_confidence := confidence; s_reasoning := aiAnalysis |}).

(* ================================================================= *)
(** ** Helpers of [RecentPerformanceAgents] *)

(** [match.winnerId === playerId] ([null] equals no id). *)
Definition won_by (m : MatchRow) (playerId : string) : bool :=
  match mr_winnerId m with Some w => String.eqb w playerId | None => false end.

Record RecentStats := {
  rs_wins : nat;
  rs_losses : nat;
  rs_winRate : Q;
  rs_totalMatches : nat
}.

Definition calculateRecentStats (matches : list MatchRow) (playerId : string)
    : RecentStats :=
  if Nat.eqb (length matches) 0
  then {| rs_wins := 0; rs_losses := 0; rs_winRate := 0; rs_totalMatches := 0 |}
  else
    let wins := length (List.filter (fun m => won_by m playerId) matches) in
    let losses := (length matches - wins)%nat in
    let winRate := (inject_Z (Z.of_nat wins) / inject_Z (Z.of_nat (length matches)))%Q in
    {| rs_wins := wins; rs_losses := losses; rs_winRate := winRate;
       rs_totalMatches := length matches |}.

Definition calculateSurfaceStats (matches : list MatchRow) (playerId surface : string)
    : RecentStats :=
  let surfaceMatches := List.filter (fun m => String.eqb (mr_surface m) surface) matches in
  calculateRecentStats surfaceMatches playerId.

(** [{ advantage, confidence, winner }] of the three [determine*Advantage]
    helpers. *)
Record AdvantageCall := {
  ac_advantage : string;
  ac_confidence : Q;
  ac_winner : string
}.

(** The branch structure the three helpers share, on the two scores and
    their thresholds [lo] and [hi]. *)
Definition advantage_bands (lo hi score1 score2 : Q) : AdvantageCall :=
  let difference := Qabs (score1 - score2)%Q in
  if js_lt difference lo then
    {| ac_advantage := "none"; ac_confidence := 1#2; ac_winner := "None" |}
  else if js_lt difference hi then
    {| ac_advantage := if js_gt score1 score2 then "slight_player1" else "slight_player2";
       ac_confidence := ((6#10) + difference)%Q;
       ac_winner := if js_gt score1 score2 then "Player 1" else "Player 2" |}
  else
    {| ac_advantage := if js_gt score1 score2 then "player1" else "player2";
       ac_confidence := ((7#10) + js_min difference (3#10))%Q;
       ac_winner := if js_gt score1 score2 then "Player 1" else "Player 2" |}.

Definition determineFormAdvantage (player1Stats player2Stats player1Surface
    player2Surface : RecentStats) : AdvantageCall :=
  let player1Score := (rs_winRate player1Stats * (6#10) + rs_winRate player1Surface * (4#10))%Q in
  let player2Score := (rs_winRate player2Stats * (6#10) + rs_winRate player2Surface * (4#10))%Q in
  advantage_bands (1#10) (2#10) player1Score player2Score.

(** The analysis part of [analyzeRecentMatches], on the rows
    [storage.getRecentMatches(id, match.surface, 15)] returned. *)
Definition recentMatches_advantage (player1RecentMatches player2RecentMatches : list MatchRow)
    (player1Id player2Id surface : string) : AdvantageCall :=
  let player1Stats := calculateRecentStats player1RecentMatches player1Id in
  let player2Stats := calculateRecentStats player2RecentMatches player2Id in
  let player1SurfaceStats := calculateSurfaceStats player1RecentMatches player1Id surface in
  let player2SurfaceStats := calculateSurfaceStats player2RecentMatches player2Id surface in
  determineFormAdvantage player1Stats player2Stats player1SurfaceStats player2SurfaceStats.

Record Momentum := {
  currentStreak : nat;
  streakType : string;
  consistency : Q;
  recentForm : list nat
}.

(** [new Date(m.scheduledTime || 0).getTime()] *)
Definition time_key (m : MatchRow) : Z :=
  match mr_scheduledTime m with Some t => t | None => 0%Z end.

(** [matches.sort((a, b) => key(b) - key(a))]: a stable sort, most recent
    first; rows with equal keys keep their order. *)
Fixpoint insert_desc (x : MatchRow) (l : list MatchRow) : list MatchRow :=
  match l with
  | [] => [x]
  | y :: l' => if Z.ltb (time_key y) (time_key x) then x :: y :: l'
               else y :: insert_desc x l'
  end.

Fixpoint sort_desc (l : list MatchRow) : list MatchRow :=
  match l with
  | [] => []
  | x :: l' => insert_desc x (sort_desc l')
  end.

(** The streak loop, with its [break]. *)
Fixpoint streak_loop (ms : list MatchRow) (playerId : string)
    (currentStreak : nat) (streakType : string) : nat * string :=
  match ms with
  | [] => (currentStreak, streakType)
  | m :: ms' =>
      let isWin := won_by m playerId in
      if Nat.eqb currentStreak 0 then
        streak_loop ms' playerId 1 (if isWin then "win" else "loss")
      else if (String.eqb streakType "win" && isWin) ||
              (String.eqb streakType "loss" && negb isWin) then
        streak_loop ms' playerId (S currentStreak) streakType
      else (currentStreak, streakType)
  end.

Definition calculateMomentum (matches : list MatchRow) (playerId : string) : Momentum :=
  if Nat.eqb (length matches) 0 then
    {| currentStreak := 0; streakType := "none"; consistency := 0; recentForm := [] |}
  else
    let sortedMatches := sort_desc matches in
    let '(cs, st) := streak_loop sortedMatches playerId 0 "none" in
    let recentResults := map (fun m => if won_by m playerId then 1%nat else 0%nat)
                             (firstn 5 sortedMatches) in
    let wins := length (List.filter (fun r => Nat.eqb r 1) recentResults) in
    {| currentStreak := cs; streakType := st;
       consistency := (inject_Z (Z.of_nat wins) / inject_Z (Z.of_nat (length recentResults)))%Q;
       recentForm := recentResults |}.

Definition scoreMomentum (momentum : Momentum) : Q :=
  let score := (consistency momentum * (6#10))%Q in
  let bonus := js_min (inject_Z (Z.of_nat (currentStreak momentum)) * (1#10))%Q (4#10) in
  let score := if String.eqb (streakType momentum) "win" then (score + bonus)%Q
               else if String.eqb (streakType momentum) "loss" then (score - bonus)%Q
               else score in
  js_max 0 (js_min 1 score).

Definition determineMomentumAdvantage (player1Momentum player2Momentum : Momentum)
    : AdvantageCall :=
  advantage_bands (15#100) (3#10) (scoreMomentum player1Momentum)
    (scoreMomentum player2Momentum).

(** [score.split(",")] *)
Fixpoint split_on (c : ascii) (s : string) : list string :=
  match s with
  | EmptyString => [EmptyString]
  | String a s' =>
      if Ascii.eqb a c then EmptyString :: split_on c s'
      else match split_on c s' with
           | w :: ws => String a w :: ws
           | [] => [String a EmptyString]
           end
  end.

Definition isClutchMatch (score : string) : bool :=
  includes "7-6" score || Nat.leb 3 (length (split_on "," score)).

Definition extractClutchMoments (matches : list MatchRow) (playerId : string) : Q :=
  let '(clutchWins, totalClutchSituations) :=
    fold_left (fun '(w, t) m =>
      if str_truthy (mr_score m) && isClutchMatch (str_or (mr_score m) "") then
        (if won_by m playerId then S w else w, S t)
      else (w, t)) matches (0%nat, 0%nat) in
  if Nat.ltb 0 totalClutchSituations
  then (inject_Z (Z.of_nat clutchWins) / inject_Z (Z.of_nat totalClutchSituations))%Q
  else 0.

Record ClutchStats := {
  tiebreakRate : Q;
  decidingSetRate : Q;
  cs_breakPointsSaved : Q;
  recentClutchMoments : Q;
  clutchScore : Q
}.

Definition determineClutchAdvantage (player1Clutch player2Clutch : ClutchStats)
    : AdvantageCall :=
  advantage_bands (1#10) (2#10) (clutchScore player1Clutch) (clutchScore player2Clutch).

(* ================================================================= *)
(** ** [analyzeEnvironment] of [SurfaceEnvironmentAgents] *)













(* ================================================================= *)
(** ** Head-to-head helpers of [MatchupAgents] *)

(** [winner === 'player1' ? (p1Id === player1Id ? 'player1' : 'player2')
                            : (p2Id === player1Id ? 'player1' : 'player2')] *)
Definition h2h_winner (m : MatchRow) (player1Id : string) : string :=
  match mr_winner m with
  | Some w =>
      if String.eqb w "player1"
      then (if String.eqb (mr_player1Id m) player1Id then "player1" else "player2")
      else (if String.eqb (mr_player2Id m) player1Id then "player1" else "player2")
  | None => if String.eqb (mr_player2Id m) player1Id then "player1" else "player2"
  end.

Definition is_winner (m : MatchRow) (w : string) : bool :=
  match mr_winner m with Some x => String.eqb x w | None => false end.

Record H2HStats := {
  player1Wins : nat;
  player2Wins : nat;
  h2h_totalMatches : nat;
  player1WinRate : Q;
  lastWinner : option string
}.

Definition calculateH2HStats (matches : list MatchRow) (player1Id player2Id : string)
    : H2HStats :=
  let player1Wins := length (List.filter (fun m =>
        (String.eqb (mr_player1Id m) player1Id && is_winner m "player1") ||
        (String.eqb (mr_player2Id m) player1Id && is_winner m "player2")) matches) in
  {| player1Wins := player1Wins;
     player2Wins := (length matches - player1Wins)%nat;
     h2h_totalMatches := length matches;
     player1WinRate := if Nat.ltb 0 (length matches)
                       then (inject_Z (Z.of_nat player1Wins) /
                             inject_Z (Z.of_nat (length matches)))%Q
                       else 0;
     lastWinner := match matches with
                   | m :: _ => Some (h2h_winner m player1Id)
                   | [] => None
                   end |}.

(** [stats.player2WinRate]: the object built by [calculateH2HStats] has no
    such property, so the read gives [undefined]. *)
Definition player2WinRate (stats : H2HStats) : option Q := None.

Record Psychology := { dominance : string; streaks : list (string * nat) }.

Fixpoint streak_scan (ms : list MatchRow) (player1Id : string)
    (current : string * nat) (acc : list (string * nat)) : list (string * nat) :=
  match ms with
  | [] => acc
  | m :: ms' =>
      let winner := h2h_winner m player1Id in
      if String.eqb winner (fst current)
      then streak_scan ms' player1Id (fst current, S (snd current)) acc
      else streak_scan ms' player1Id (winner, 1%nat)
             (if Nat.leb 3 (snd current) then app acc [current] else acc)
  end.

Definition analyzePsychologicalFactors (matches : list MatchRow) (player1Id player2Id : string)
    : Psychology :=
  if Nat.eqb (length matches) 0 then {| dominance := "none"; streaks := [] |} else
  let stats := calculateH2HStats matches player1Id player2Id in
  let dominance :=
    if js_gt (player1WinRate stats) (3#4) && Nat.leb 4 (length matches) then "player1"
    else if match player2WinRate stats with
            | Some r => js_gt r (3#4)
            | None => false
            end && Nat.leb 4 (length matches) then "player2"
    else "none" in
  {| dominance := dominance; streaks := streak_scan matches player1Id ("", 0%nat) [] |}.

Definition calculateH2HConfidence (overall surface : H2HStats) : Q :=
  if Nat.eqb (h2h_totalMatches overall) 0 then 0 else
  let winRateDiff := (Qabs (player1WinRate overall - (1#2)) * 2)%Q in
  let sampleConfidence := js_min 1 (inject_Z (Z.of_nat (h2h_totalMatches overall)) / 10)%Q in
  (winRateDiff * sampleConfidence * (8#10) + (2#10))%Q.

(* ================================================================= *)
(** ** Vocabulary for stating further properties *)

(** Swapping the two players' labels. *)
Definition mirror_advantage (a : string) : string :=
  if String.eqb a "player1" then "player2"
  else if String.eqb a "player2" then "player1"
  else if String.eqb a "slight_player1" then "slight_player2"
  else if String.eqb a "slight_player2" then "slight_player1"
  else a.

Definition mirror_winner (w : string) : string :=
  if String.eqb w "Player 1" then "Player 2"
  else if String.eqb w "Player 2" then "Player 1"
  else w.

(** Occurrences of a character. *)
Fixpoint count_char (c : ascii) (s : string) : nat :=
  match s with
  | EmptyString => 0
  | String a s' => (if Ascii.eqb a c then 1 else 0) + count_char c s'
  end.

(** Number of [TaskStarts] events for the name [n]. *)
Definition starts_of (n : string) (evs : list RegistryEvent) : nat :=
  length (List.filter (fun ev => match ev with
                            | TaskStarts m _ => String.eqb m n
                            | TaskSettles _ _ _ => false
                            end) evs).

(* ================================================================= *)
(** ** Sample match rows *)

Definition sample_row (winnerId : string) (t : Z) : MatchRow :=
  {| mr_player1Id := "p1"; mr_player2Id := "p2"; mr_scheduledTime := Some t;
     mr_winnerId := Some winnerId; mr_score := Some "6-4, 7-6"; mr_surface := "hard";
     mr_winner := None |}.

Definition sweep_rows : list MatchRow :=
  [sample_row "p1" 4; sample_row "p1" 1; sample_row "p1" 3; sample_row "p1" 2].

Definition lost_rows : list MatchRow := [sample_row "p1" 5; sample_row "p1" 6].

(* ================================================================= *)
(** * Properties *)

(** ** Fallback synthesizer *)

Lemma js_max_spec (a b : Q) : (js_max a b == Qmax a b)%Q.
Proof.
  unfold js_max. destruct (Qlt_le_dec a b) as [H|H].
  - symmetry. apply Q.max_r. apply Qlt_le_weak. exact H.
  - symmetry. apply Q.max_l. exact H.
Qed.

Lemma js_min_spec (a b : Q) : (js_min a b == Qmin a b)%Q.
Proof.
  unfold js_min. destruct (Qlt_le_dec b a) as [H|H].
  - symmetry. apply Q.min_r. apply Qlt_le_weak. exact H.
  - symmetry. apply Q.min_l. exact H.
Qed.

Lemma fallbackWinProbability_spec (c1 c2 : nat) :
  (fallbackWinProbability c1 c2 ==
   Qmax (1#2) (Qmin (9#10) ((1#2) + inject_Z (Z.abs (Z.of_nat c1 - Z.of_nat c2)) * (1#20))))%Q.
Proof.
  unfold fallbackWinProbability.
  rewrite js_max_spec. apply Q.max_compat; [reflexivity|]. apply js_min_spec.
Qed.

Lemma fallbackWinProbability_bounds (c1 c2 : nat) :
  (1#2 <= fallbackWinProbability c1 c2 <= 9#10)%Q.
Proof.
  rewrite fallbackWinProbability_spec. split.
  - apply Q.le_max_l.
  - apply Q.max_lub; [discriminate|]. apply Q.le_min_l.
Qed.

Lemma fallbackWinProbability_tie (c : nat) : (fallbackWinProbability c c == 1#2)%Q.
Proof.
  rewrite fallbackWinProbability_spec. rewrite Z.sub_diag. simpl.
  apply Q.max_l. eapply Qle_trans; [apply Q.le_min_r|]. compute. discriminate.
Qed.

(** C1: the fallback majority vote. [player1Advantages] counts the records
    whose advantage is ["player1"] or ["slight_player1"], [player2Advantages]
    those with ["player2"] or ["slight_player2"]; the strict majority wins;
    the win probability is [clamp(0.5 + 0.05 * |c1 - c2|, 0.5, 0.9)] and the
    confidence is [0.75]. On [player1, player1, player2] the winner is
    player1 with probability 0.55. *)
Theorem fallback_majority_vote (player1 player2 : Player) (fas : list FactorAnalysis) :
  let r := fallbackPrediction player1 player2 fas in
  let c1 := player1Advantages fas in
  let c2 := player2Advantages fas in
  (c1 > c2 -> predictedWinnerId r = player_id player1) /\
  (c2 > c1 -> predictedWinnerId r = player_id player2) /\
  (winProbability r ==
    Qmax (1#2) (Qmin (9#10) ((1#2) + inject_Z (Z.abs (Z.of_nat c1 - Z.of_nat c2)) * (1#20))))%Q /\
  (1#2 <= winProbability r <= 9#10)%Q /\
  confidenceLevel r = (3#4)%Q /\
  (forall f1 f2 f3 : FactorAnalysis,
     advantage f1 = "player1" -> advantage f2 = "player1" -> advantage f3 = "player2" ->
     predictedWinnerId (fallbackPrediction player1 player2 [f1; f2; f3]) = player_id player1 /\
     (winProbability (fallbackPrediction player1 player2 [f1; f2; f3]) == 11#20)%Q).
Proof.
  cbv zeta. unfold fallbackPrediction; cbn [predictedWinnerId winProbability confidenceLevel].
  split; [|split; [|split; [|split; [|split]]]].
  - intros H. destruct (Nat.ltb_spec (player2Advantages fas) (player1Advantages fas)); [reflexivity | lia].
  - intros H. destruct (Nat.ltb_spec (player2Advantages fas) (player1Advantages fas)); [lia | reflexivity].
  - apply fallbackWinProbability_spec.
  - apply fallbackWinProbability_bounds.
  - reflexivity.
  - intros [] [] [] H1 H2 H3; cbn in H1, H2, H3; subst. split; reflexivity.
Qed.

Lemma fallback_majority_vote_witness :
  3 > 0 /\ predictedWinnerId (fallbackPrediction P1 P2 [fa_with "player1"; fa_with "slight_player1"; fa_with "none"; fa_with "player1"]) = "p1".
Proof.
  split; [lia|].
  apply (proj1 (fallback_majority_vote P1 P2
    [fa_with "player1"; fa_with "slight_player1"; fa_with "none"; fa_with "player1"])).
  vm_compute. lia.
Defined.

(** C9: on a tie of the advantage counts, the empty list included, the
    fallback names player2 with win probability exactly 0.5 and confidence
    0.75; the function is total (no division, no error). *)
Theorem fallback_tie_goes_to_player2 (player1 player2 : Player) (fas : list FactorAnalysis) :
  player1Advantages fas = player2Advantages fas ->
  let r := fallbackPrediction player1 player2 fas in
  predictedWinnerId r = player_id player2 /\
  (winProbability r == 1#2)%Q /\
  confidenceLevel r = (3#4)%Q.
Proof.
  intros Heq. cbv zeta. unfold fallbackPrediction; cbn [predictedWinnerId winProbability confidenceLevel].
  rewrite Heq, Nat.ltb_irrefl. split; [reflexivity|split; [|reflexivity]].
  apply fallbackWinProbability_tie.
Qed.

Lemma fallback_tie_goes_to_player2_witness :
  player1Advantages [] = player2Advantages [] /\
  predictedWinnerId (fallbackPrediction P1 P2 []) = "p2" /\
  player1Advantages [fa_with "player1"; fa_with "slight_player2"] =
    player2Advantages [fa_with "player1"; fa_with "slight_player2"] /\
  predictedWinnerId (fallbackPrediction P1 P2 [fa_with "player1"; fa_with "slight_player2"]) = "p2".
Proof.
  split; [reflexivity|]. split.
  { apply (proj1 (fallback_tie_goes_to_player2 P1 P2 [] eq_refl)). }
  split; [reflexivity|].
  apply (proj1 (fallback_tie_goes_to_player2 P1 P2
           [fa_with "player1"; fa_with "slight_player2"] eq_refl)).
Defined.

(** C4 (counterexample): on the empty factor list the fallback does not
    divide and its winner is defined: player2's id, probability 0.5,
    confidence 0.75. *)
Lemma fallback_empty_list_is_defined :
  fallbackPrediction P1 P2 [] =
  {| predictedWinnerId := "p2"; winProbability := (1#2)%Q; confidenceLevel := (3#4)%Q;
     factorAnalysis := [];
     result_reasoning := "Based on factor analysis: ... fallback majority vote system." |}.
Proof. vm_compute. reflexivity. Qed.

(** C4 (amended): on an empty factor list the fallback synthesizer performs no
    division; both counts are 0 and it returns player2's id with win
    probability 0.5 and confidence 0.75. *)
Theorem fallback_empty_list (player1 player2 : Player) :
  let r := fallbackPrediction player1 player2 [] in
  predictedWinnerId r = player_id player2 /\
  winProbability r = (1#2)%Q /\
  confidenceLevel r = (3#4)%Q /\
  factorAnalysis r = [].
Proof. repeat split. Qed.

(** ** Compiling task outputs *)

Lemma compileResult_spec (category : string) (o : option RawResult) (fa : FactorAnalysis) :
  In fa (compileResult category o) <->
  exists r c, o = Some r /\ raw_conclusion r = Some c /\ c <> "" /\
    fa = {| factor := str_or (raw_factor r) category; conclusion := c;
            advantage := str_or (raw_advantage r) "none";
            confidence := num_or (raw_confidence r) (1#2);
            reasoning := str_or (raw_reasoning r) "" |}.
Proof.
  unfold compileResult. split.
  - destruct o as [r|]; [|intros []].
    destruct (raw_conclusion r) as [c|] eqn:Hc; cbn; [|intros []].
    destruct (String.eqb_spec c "") as [->|Hne]; cbn; [intros []|].
    intros [<-|[]]. exists r, c. repeat split; auto.
  - intros (r & c & -> & Hc & Hne & ->). rewrite Hc. cbn.
    destruct (String.eqb_spec c "") as [|_]; [contradiction|]. cbn. left. reflexivity.
Qed.

Lemma num_or_nonzero (o : option Q) : ~ (num_or o (1#2) == 0)%Q.
Proof.
  unfold num_or. destruct o as [q|]; [|discriminate].
  destruct (Qeq_bool q 0) eqn:E; [discriminate|].
  intros H. apply Qeq_bool_iff in H. congruence.
Qed.

(** C10: [factorAnalyses] holds exactly one record per array element that is
    an object with a non-empty [conclusion]; elements with an empty or
    missing conclusion are dropped, and a falsy ([0] or missing) confidence
    becomes [0.5], so no compiled record has confidence 0. In particular the
    catch record of a task whose error confidence is [0.0] appears with
    confidence [0.5]. *)
Theorem compile_factor_analyses_spec (analysisResults : list (string * GroupValue)) :
  (forall fa, In fa (compileFactorAnalyses analysisResults) <->
     exists category rs r c,
       In (category, GroupArray rs) analysisResults /\ In (Some r) rs /\
       raw_conclusion r = Some c /\ c <> "" /\
       fa = {| factor := str_or (raw_factor r) category; conclusion := c;
               advantage := str_or (raw_advantage r) "none";
               confidence := num_or (raw_confidence r) (1#2);
               reasoning := str_or (raw_reasoning r) "" |}) /\
  (forall fa, In fa (compileFactorAnalyses analysisResults) ->
     conclusion fa <> "" /\ ~ (confidence fa == 0)%Q) /\
  (forall (t : TaskSpec) (e category : string),
     In t all_tasks -> ts_err_confidence t = 0%Q ->
     map confidence
       (compileFactorAnalyses [(category, GroupArray [Some (as_raw (run_task t (Throw e)))])])
     = [(1#2)%Q]).
Proof.
  assert (Hmem : forall fa, In fa (compileFactorAnalyses analysisResults) <->
     exists category rs r c,
       In (category, GroupArray rs) analysisResults /\ In (Some r) rs /\
       raw_conclusion r = Some c /\ c <> "" /\
       fa = {| factor := str_or (raw_factor r) category; conclusion := c;
               advantage := str_or (raw_advantage r) "none";
               confidence := num_or (raw_confidence r) (1#2);
               reasoning := str_or (raw_reasoning r) "" |}).
  { intros fa. unfold compileFactorAnalyses. rewrite in_flat_map. split.
    - intros ([category g] & Hin & Hfa).
      destruct g as [rs|]; [|destruct Hfa].
      apply in_flat_map in Hfa as (o & Ho & Hfa).
      apply compileResult_spec in Hfa as (r & c & -> & Hc & Hne & ->).
      exists category, rs, r, c. auto.
    - intros (category & rs & r & c & Hin & Hr & Hc & Hne & ->).
      exists (category, GroupArray rs). split; [exact Hin|].
      apply in_flat_map. exists (Some r). split; [exact Hr|].
      apply compileResult_spec. exists r, c. auto. }
  split; [exact Hmem|split].
  - intros fa Hin. apply Hmem in Hin as (category & rs & r & c & _ & _ & _ & Hne & ->).
    split; [exact Hne|apply num_or_nonzero].
  - intros t e category Hin Hz.
    repeat (destruct Hin as [<-|Hin]; [try discriminate Hz; reflexivity|]).
    destruct Hin.
Qed.

Lemma compile_factor_analyses_spec_witness :
  In analyzeServePerformance_spec all_tasks /\
  map confidence (compileFactorAnalyses
    [("statistical", GroupArray [Some (as_raw (run_task analyzeServePerformance_spec
                                                 (Throw "completion failed")))])])
  = [(1#2)%Q].
Proof.
  split; [simpl; auto|].
  apply (proj2 (proj2 (compile_factor_analyses_spec []))); [simpl; auto | reflexivity].
Defined.

(** ** Analysis task functions *)

(** C3 (counterexample): with a failing completion client, the Environment
    Analyst returns confidence 0.5, not 0.0. *)
Lemma environment_task_error_confidence :
  let r := run_task analyzeEnvironment_spec (Throw "completion failed") in
  t_advantage r = "none" /\ t_confidence r = (1#2)%Q /\ ~ (t_confidence r == 0)%Q.
Proof. cbn. split; [reflexivity|split; [reflexivity|discriminate]]. Qed.

(** C3 (amended): every task function returns a record for every outcome of
    its [try] block, with its own agent name and factor; when the [try]
    block throws (a failing completion client included) the record has
    advantage ["none"] and the confidence of that task's [catch] record:
    0.5 for the Injury & Fitness Status Monitor, the Environment Analyst and
    the News Monitor, 0.3 for the Data Gaps & Uncertainty Reporter, and 0.0
    for the fifteen others. For [analyzeServePerformance], a failing
    completion client yields advantage ["none"] and confidence 0.0. *)
Theorem task_error_records (t : TaskSpec) (body : Outcome TaskSuccess) :
  In t all_tasks ->
  agentName (run_task t body) = ts_agentName t /\
  t_factor (run_task t body) = ts_factor t /\
  (forall e, body = Throw e ->
     t_advantage (run_task t body) = "none" /\
     t_confidence (run_task t body) =
       (if existsb (String.eqb (ts_agentName t))
             ["Injury & Fitness Status Monitor"; "Environment Analyst"; "News Monitor"]
        then 1#2
        else if String.eqb (ts_agentName t) "Data Gaps & Uncertainty Reporter"
        then 3#10 else 0)%Q) /\
  (forall stats conf e,
     t_advantage (analyzeServePerformance stats (Throw e) conf) = "none" /\
     t_confidence (analyzeServePerformance stats (Throw e) conf) = 0%Q).
Proof.
  intros Hin.
  split; [destruct body; reflexivity|].
  split; [destruct body; reflexivity|].
  split.
  - intros e ->. cbn [run_task t_advantage t_confidence].
    repeat (destruct Hin as [<-|Hin]; [split; reflexivity|]).
    destruct Hin.
  - intros stats conf e; destruct stats; split; reflexivity.
Qed.

Lemma task_error_records_witness :
  In analyzeEnvironment_spec all_tasks /\
  t_confidence (run_task analyzeEnvironment_spec (Throw "completion failed")) = (1#2)%Q.
Proof.
  split; [simpl; tauto|].
  apply (proj2 (proj1 (proj2 (proj2
    (task_error_records analyzeEnvironment_spec (Throw "completion failed")
       ltac:(simpl; tauto)))) "completion failed" eq_refl)).
Defined.

(** ** The per-match in-flight guard *)

Section InFlightGuard.

Lemma count_runs_cons (m x : string) (l : list string) :
  count_runs m (x :: l) = (if String.eqb x m then 1 else 0) + count_runs m l.
Proof.
  unfold count_runs. rewrite filter_cons.
  destruct (String.eqb_spec x m); case_decide; simpl; congruence.
Qed.

Lemma count_runs_zero (m : string) (l : list string) :
  count_runs m l = 0 <-> ~ In m l.
Proof.
  induction l as [|x l IH]; [simpl; tauto|].
  rewrite count_runs_cons. simpl.
  destruct (String.eqb_spec x m); split; intros H.
  - lia.
  - exfalso. apply H. left. assumption.
  - intros [Hx|Hin]; [contradiction|]. apply IH; [lia|assumption].
  - apply IH. intros Hin. apply H. right. exact Hin.
Qed.

Lemma count_runs_remove_one (m0 m : string) (l : list string) :
  In m0 l ->
  count_runs m (remove_one m0 l) = count_runs m l - (if String.eqb m0 m then 1 else 0).
Proof.
  induction l as [|x l IH]; [intros []|].
  intros Hin. simpl remove_one. destruct (String.eqb_spec x m0) as [->|Hne].
  - rewrite count_runs_cons. lia.
  - destruct Hin as [Hx|Hin]; [contradiction|].
    rewrite !count_runs_cons, IH by exact Hin.
    destruct (String.eqb_spec m0 m) as [->|]; [|lia].
    assert (count_runs m l <> 0) by (rewrite count_runs_zero; tauto). lia.
Qed.

(** Every match id is either marked with one run in flight, or unmarked with
    none. *)
Definition guard_inv (st : OrchState) : Prop :=
  forall m,
    (currentAnalysis st !! m = Some true /\ count_runs m (in_flight st) = 1) \/
    (currentAnalysis st !! m = None /\ count_runs m (in_flight st) = 0).

Lemma guard_inv_init : guard_inv orch_init.
Proof. intros m. right. split; reflexivity. Qed.

Lemma guard_inv_enter (st : OrchState) (m0 : string) :
  guard_inv st -> guard_inv (snd (analyzeMatch_enter st m0)).
Proof.
  intros Hinv. unfold analyzeMatch_enter.
  destruct (currentAnalysis st !! m0) as [[|]|] eqn:Hm0; [exact Hinv| |];
    intros m; cbn [snd currentAnalysis in_flight]; rewrite count_runs_cons;
    (destruct (String.eqb_spec m0 m) as [<-|Hne];
     [ left; rewrite lookup_insert_eq; split; [reflexivity|];
       destruct (Hinv m0) as [[H _]|[_ H]]; [congruence|lia]
     | rewrite lookup_insert_ne by exact Hne; apply Hinv ]).
Qed.

Lemma guard_inv_finally (st : OrchState) (m0 : string) :
  guard_inv st -> guard_inv (analyzeMatch_finally st m0).
Proof.
  intros Hinv. unfold analyzeMatch_finally.
  destruct (existsb (String.eqb m0) (in_flight st)) eqn:Hex; [|exact Hinv].
  apply existsb_exists in Hex as (x & Hx & Heq). apply String.eqb_eq in Heq. subst x.
  intros m. cbn [currentAnalysis in_flight]. rewrite count_runs_remove_one by exact Hx.
  destruct (String.eqb_spec m0 m) as [<-|Hne].
  - right. rewrite lookup_delete_eq. split; [reflexivity|].
    destruct (Hinv m0) as [[_ H]|[_ H]]; lia.
  - rewrite lookup_delete_ne by exact Hne. rewrite Nat.sub_0_r. apply Hinv.
Qed.

Lemma guard_inv_run (evs : list OrchEvent) (st : OrchState) :
  guard_inv st -> guard_inv (fold_left orch_step evs st).
Proof.
  revert st. induction evs as [|ev evs IH]; intros st Hinv; [exact Hinv|].
  simpl. apply IH. destruct ev; simpl.
  - apply guard_inv_enter. exact Hinv.
  - apply guard_inv_finally. exact Hinv.
Qed.

End InFlightGuard.

(** C2: in every state reachable by any interleaving of calls to
    [analyzeMatch] and settlings of runs, at most one run per match id is in
    flight; a call for a match id with a run in flight fails at once with
    "Match analysis already in progress" and leaves the state unchanged
    (no queuing, no joining), and a call for a match id with no run in
    flight starts a run. *)
Theorem analyzeMatch_in_flight_guard (evs : list OrchEvent) (m : string) :
  let st := orch_run evs in
  count_runs m (in_flight st) <= 1 /\
  (In m (in_flight st) ->
     analyzeMatch_enter st m = (Rejected "Match analysis already in progress", st)) /\
  (~ In m (in_flight st) -> fst (analyzeMatch_enter st m) = Started).
Proof.
  cbv zeta. pose proof (guard_inv_run evs orch_init guard_inv_init m) as Hinv.
  unfold orch_run. unfold analyzeMatch_enter.
  destruct Hinv as [[Hl Hc]|[Hl Hc]]; rewrite Hl; split; try lia; split; auto.
  - intros Hnin. apply count_runs_zero in Hnin. lia.
  - intros Hin. apply count_runs_zero in Hc. contradiction.
Qed.

Lemma analyzeMatch_in_flight_guard_witness :
  In "m1" (in_flight (orch_run [CallAnalyze "m1"])) /\
  analyzeMatch_enter (orch_run [CallAnalyze "m1"]) "m1" =
    (Rejected "Match analysis already in progress", orch_run [CallAnalyze "m1"]) /\
  ~ In "m1" (in_flight (orch_run [CallAnalyze "m1"; RunSettles "m1"])) /\
  fst (analyzeMatch_enter (orch_run [CallAnalyze "m1"; RunSettles "m1"]) "m1") = Started.
Proof.
  split; [vm_compute; left; reflexivity|].
  split; [apply (analyzeMatch_in_flight_guard [CallAnalyze "m1"] "m1"); vm_compute; left; reflexivity|].
  split; [vm_compute; intros []|].
  apply (analyzeMatch_in_flight_guard [CallAnalyze "m1"; RunSettles "m1"] "m1").
  vm_compute. intros [].
Defined.

(** ** The [AgentStatus] registry *)

Lemma updateAgentStatus_registered (agents : gmap string AgentStatus)
    (agentName : string) (a : AgentStatus) (st : Status) (now : Z) :
  agents !! agentName = Some a ->
  option_map status (updateAgentStatus agents agentName st now !! agentName) = Some st.
Proof.
  intros Ha. unfold updateAgentStatus. rewrite Ha, lookup_insert_eq. reflexivity.
Qed.

Lemma updateAgentStatus_unregistered (agents : gmap string AgentStatus)
    (agentName : string) (st : Status) (now : Z) :
  agents !! agentName = None -> updateAgentStatus agents agentName st now = agents.
Proof. intros Ha. unfold updateAgentStatus. rewrite Ha. reflexivity. Qed.

(** The orchestrator never writes [Idle]: an entry that has left [Idle] does
    not return to it, and no entry is ever added. *)
Lemma registry_step_not_idle (agents : gmap string AgentStatus) (ev : RegistryEvent)
    (n : string) (a : AgentStatus) :
  agents !! n = Some a -> status a <> Idle ->
  exists a', registry_step agents ev !! n = Some a' /\ status a' <> Idle.
Proof.
  intros Ha Hst. destruct ev as [m t|m ok t]; cbn [registry_step];
    unfold runAgentAnalysis_start, runAgentAnalysis_settle, updateAgentStatus;
    destruct (agents !! m) as [b|] eqn:Hb; try (exists a; split; assumption);
    (destruct (String.eqb_spec m n) as [<-|Hne];
     [ rewrite lookup_insert_eq; eexists; split; [reflexivity|]; cbn;
       try destruct ok; discriminate
     | rewrite lookup_insert_ne by exact Hne; exists a; split; assumption ]).
Qed.

(** C8 (code defect): the orchestrator starts a task named
    "Recent Match Physical Toll Analyst", but the registry built by
    [initializeAgents] has no entry of that name, so [updateAgentStatus]
    finds nothing and the task's status never becomes "processing" (nor
    "active" or "error"); every other task name the orchestrator runs has a
    registry entry. *)
Theorem physical_toll_task_has_no_status (now t : Z) (ok : bool) :
  In "Recent Match Physical Toll Analyst" orchestrated_task_names /\
  initializeAgents now !! "Recent Match Physical Toll Analyst" = None /\
  runAgentAnalysis_start (initializeAgents now) "Recent Match Physical Toll Analyst" t
    = initializeAgents now /\
  runAgentAnalysis_settle (initializeAgents now) "Recent Match Physical Toll Analyst" ok t
    = initializeAgents now /\
  Forall (fun n => n = "Recent Match Physical Toll Analyst" \/
                   is_Some (initializeAgents now !! n)) orchestrated_task_names.
Proof.
  assert (Hnone : initializeAgents now !! "Recent Match Physical Toll Analyst" = None)
    by (vm_compute; reflexivity).
  split; [simpl; tauto|]. split; [exact Hnone|].
  split; [apply updateAgentStatus_unregistered; exact Hnone|].
  split; [apply updateAgentStatus_unregistered; exact Hnone|].
  apply List.Forall_forall. intros n Hn. simpl in Hn.
  repeat (destruct Hn as [<-|Hn];
          [first [left; reflexivity | right; vm_compute; eexists; reflexivity]|]).
  destruct Hn.
Qed.

(** ** Group 5: the match-up tasks *)

(** C5 (code defect): the three match-up tasks run one after the other, each
    called only after the previous one settled, but the Tactical Battle
    Synthesizer is called with three arguments only, so its [styleAnalysis]
    and [h2hAnalysis] parameters are [undefined]: it does not receive the
    outputs of the two earlier tasks. *)
Theorem matchup_group_tactical_gets_no_context (exec : string -> list JsArg -> TaskResult) :
  snd (runMatchupGroup exec []) =
    [TaskCalled "Playing Style Profiler" [ArgMatch; ArgPlayer1; ArgPlayer2];
     TaskDone "Playing Style Profiler";
     TaskCalled "Head-to-Head Analyst" [ArgMatch; ArgPlayer1; ArgPlayer2];
     TaskDone "Head-to-Head Analyst";
     TaskCalled "Tactical Battle Synthesizer" [ArgMatch; ArgPlayer1; ArgPlayer2];
     TaskDone "Tactical Battle Synthesizer"] /\
  fst (runMatchupGroup exec []) =
    [exec "Playing Style Profiler" [ArgMatch; ArgPlayer1; ArgPlayer2];
     exec "Head-to-Head Analyst" [ArgMatch; ArgPlayer1; ArgPlayer2];
     exec "Tactical Battle Synthesizer" [ArgMatch; ArgPlayer1; ArgPlayer2]] /\
  analyzeTacticalBattle_context [ArgMatch; ArgPlayer1; ArgPlayer2] =
    {| styleContext := ArgUndefined; h2hContext := ArgUndefined |}.
Proof. repeat split. Qed.

(** ** [extractAdvantage] *)

Section ExtractAdvantage.

Lemma ci_prefix_app (a b u : string) :
  ci_prefix (a ++ b) u = ci_prefix a u && ci_prefix b (str_drop (String.length a) u).
Proof.
  revert u. induction a as [|c a IH]; intros u; [reflexivity|].
  destruct u as [|c' u]; [reflexivity|].
  cbn [ci_prefix String.length str_drop]. rewrite <- andb_assoc, <- IH.
  reflexivity.
Qed.

Lemma get_drop (n : nat) (u : string) (d : ascii) :
  String.get n u = Some d -> str_drop n u = String d (str_drop (S n) u).
Proof.
  revert u. induction n as [|n IH]; intros [|c u] H; try discriminate H.
  - cbn in H. injection H as ->. reflexivity.
  - cbn in H. cbn [str_drop]. apply IH. exact H.
Qed.

Lemma substring_drop (m n : nat) (u : string) :
  substring m n u = substring 0 n (str_drop m u).
Proof.
  revert u. induction m as [|m IH]; intros [|c u]; try reflexivity.
  - destruct n; reflexivity.
  - apply IH.
Qed.

Lemma ci_prefix_stars_substring (v : string) :
  ci_prefix "**" (substring 0 2 v) = ci_prefix "**" v.
Proof.
  destruct v as [|a [|b v]]; cbn; rewrite ?andb_true_r; reflexivity.
Qed.

Lemma ci_eq_refl (c : ascii) : ci_eq c c = true.
Proof. unfold ci_eq. apply Ascii.eqb_refl. Qed.

Lemma match_digit_marker_some (lit u : string) (d : ascii) :
  match_digit_marker lit u = Some d ->
  is_digit d = true /\ ci_prefix (lit ++ String d "**") u = true.
Proof.
  unfold match_digit_marker.
  destruct (ci_prefix lit u) eqn:Hp; [|discriminate].
  destruct (String.get (String.length lit) u) as [d'|] eqn:Hg; [|discriminate].
  destruct (is_digit d' && ci_prefix "**" (substring (String.length lit + 1) 2 u)) eqn:Hb;
    [|discriminate].
  intros Hs. injection Hs as <-. apply andb_prop in Hb as [Hd Hs].
  split; [exact Hd|].
  rewrite ci_prefix_app, Hp, (get_drop _ _ _ Hg). cbn [andb ci_prefix].
  rewrite ci_eq_refl. cbn [andb].
  rewrite substring_drop, ci_prefix_stars_substring, Nat.add_1_r in Hs.
  destruct (str_drop (S (String.length lit)) u) as [|a [|b w]]; cbn in Hs |- *;
    try discriminate Hs; rewrite ?andb_true_r in Hs |- *; exact Hs.
Qed.

Lemma match_at_marker (u : string) (m : RegexMatch) :
  match_at u = Some m -> ci_marker_at u.
Proof.
  unfold match_at, ci_marker_at.
  destruct (match_digit_marker alt_advantage u) as [d|] eqn:H1.
  { intros _. left. apply match_digit_marker_some in H1 as [Hd Hp].
    exists d. split; [exact Hd|left; exact Hp]. }
  destruct (match_digit_marker alt_slight u) as [d|] eqn:H2.
  { intros _. left. apply match_digit_marker_some in H2 as [Hd Hp].
    exists d. split; [exact Hd|right; exact Hp]. }
  destruct (ci_prefix alt_no_clear u) eqn:H3; [|discriminate].
  intros _. right. exact H3.
Qed.

Lemma regex_match_unfold (s : string) :
  regex_match s =
  match match_at s with
  | Some m => Some m
  | None => match s with EmptyString => None | String _ s' => regex_match s' end
  end.
Proof. destruct s; reflexivity. Qed.

(** The scan skips a prefix in which no marker starts. *)
Lemma regex_match_skip (pre t : string) :
  (forall k, k < String.length pre -> ~ ci_marker_at (str_drop k (pre ++ t))) ->
  regex_match (pre ++ t) = regex_match t.
Proof.
  induction pre as [|c pre IH]; intros H; [reflexivity|].
  rewrite regex_match_unfold.
  destruct (match_at (String c pre ++ t)) as [m|] eqn:Hm.
  - exfalso. apply (H 0); [cbn; lia|]. apply (match_at_marker _ m). exact Hm.
  - cbn [String.append]. apply IH. intros k Hk.
    apply (H (S k)). cbn. lia.
Qed.

Lemma append_empty (s : string) : s ++ "" = s.
Proof. induction s as [|c s IH]; [reflexivity|]. exact (f_equal (String c) IH). Qed.

Lemma is_digit_cases (d : ascii) :
  is_digit d = true ->
  d = "0"%char \/ d = "1"%char \/ d = "2"%char \/ d = "3"%char \/ d = "4"%char \/
  d = "5"%char \/ d = "6"%char \/ d = "7"%char \/ d = "8"%char \/ d = "9"%char.
Proof.
  destruct d as [[] [] [] [] [] [] [] []]; vm_compute; intros H; try discriminate H;
    repeat (first [left; reflexivity | right | reflexivity]).
Qed.

End ExtractAdvantage.

(** C6 (counterexample): (1) with two markers the leftmost one decides, so a
    reply containing [**Advantage Player 1**] yields "player2"; (2) the match
    ignores letter case, so a reply containing none of the three markers as
    written still yields "player1". *)
Lemma extractAdvantage_leftmost_and_case_insensitive :
  includes "**Advantage Player 1**" "**Advantage Player 2** over **Advantage Player 1**" = true /\
  ex_player (extractAdvantage "**Advantage Player 2** over **Advantage Player 1**") = "player2" /\
  includes "**Advantage Player 1**" "**ADVANTAGE PLAYER 1**" = false /\
  includes "**Slight Advantage Player 1**" "**ADVANTAGE PLAYER 1**" = false /\
  includes "**No Clear Advantage**" "**ADVANTAGE PLAYER 1**" = false /\
  ex_player (extractAdvantage "**ADVANTAGE PLAYER 1**") = "player1".
Proof. vm_compute. repeat split. Qed.

(** C6 (amended): [extractAdvantage] decides on the leftmost place where a
    marker starts, letters compared case-insensitively. When the marker
    found there is written exactly [**Advantage Player N**] (N a decimal
    digit) it returns advantage "playerN" and conclusion
    "Advantage Player N"; exactly [**Slight Advantage Player N**], "playerN"
    and "Slight Advantage Player N"; exactly [**No Clear Advantage**],
    "none" and "No Clear Advantage". A reply in which no marker starts
    anywhere, even ignoring letter case, yields "none" and
    "No Clear Advantage". *)
Theorem extractAdvantage_spec (pre rest : string) (d : ascii) :
  is_digit d = true ->
  ((forall k, k < String.length pre ->
      ~ ci_marker_at (str_drop k (pre ++ ("**Advantage Player " ++ String d "**") ++ rest))) ->
   extractAdvantage (pre ++ ("**Advantage Player " ++ String d "**") ++ rest) =
     {| ex_player := "player" ++ String d "";
        ex_conclusion := "Advantage Player " ++ String d "" |}) /\
  ((forall k, k < String.length pre ->
      ~ ci_marker_at (str_drop k (pre ++ ("**Slight Advantage Player " ++ String d "**") ++ rest))) ->
   extractAdvantage (pre ++ ("**Slight Advantage Player " ++ String d "**") ++ rest) =
     {| ex_player := "player" ++ String d "";
        ex_conclusion := "Slight Advantage Player " ++ String d "" |}) /\
  ((forall k, k < String.length pre ->
      ~ ci_marker_at (str_drop k (pre ++ "**No Clear Advantage**" ++ rest))) ->
   extractAdvantage (pre ++ "**No Clear Advantage**" ++ rest) =
     {| ex_player := "none"; ex_conclusion := "No Clear Advantage" |}) /\
  (forall s : string, (forall k, ~ ci_marker_at (str_drop k s)) ->
   extractAdvantage s = {| ex_player := "none"; ex_conclusion := "No Clear Advantage" |}).
Proof.
  intros Hd.
  split; [|split; [|split]].
  - intros H. unfold extractAdvantage. rewrite (regex_match_skip _ _ H).
    apply is_digit_cases in Hd.
    destruct rest as [|r0 rest];
    repeat (destruct Hd as [->|Hd]; [vm_compute; reflexivity|]);
    subst; vm_compute; reflexivity.
  - intros H. unfold extractAdvantage. rewrite (regex_match_skip _ _ H).
    apply is_digit_cases in Hd.
    destruct rest as [|r0 rest];
    repeat (destruct Hd as [->|Hd]; [vm_compute; reflexivity|]);
    subst; vm_compute; reflexivity.
  - intros H. unfold extractAdvantage. rewrite (regex_match_skip _ _ H).
    destruct rest; vm_compute; reflexivity.
  - intros s H. unfold extractAdvantage.
    rewrite <- (append_empty s), regex_match_skip; [reflexivity|].
    intros k _. rewrite append_empty. apply H.
Qed.

Lemma extractAdvantage_spec_witness :
  is_digit "2"%char = true /\
  extractAdvantage ("Verdict: " ++ ("**Advantage Player " ++ String "2"%char "**") ++ " done") =
    {| ex_player := "player2"; ex_conclusion := "Advantage Player 2" |}.
Proof.
  split; [reflexivity|].
  apply (proj1 (extractAdvantage_spec "Verdict: " " done" "2"%char eq_refl)).
  intros k Hk. cbn in Hk.
  do 9 (destruct k as [|k];
        [intros [[d [_ [H|H]]]|H]; vm_compute in H; discriminate H|]).
  lia.
Defined.

(** ** Persistence of predictions *)

Lemma find_app_fresh {A} (f : A -> bool) (l : list A) (x : A) :
  (forall y, In y l -> f y = false) -> f x = true -> find f (app l [x]) = Some x.
Proof.
  induction l as [|y l IH]; intros Hl Hx; cbn.
  - rewrite Hx. reflexivity.
  - rewrite (Hl y (or_introl eq_refl)). apply IH; [|exact Hx].
    intros z Hz. apply Hl. right. exact Hz.
Qed.

Lemma round_hundredths_exact (q : Q) (z : Z) :
  (q == inject_Z z / 100)%Q -> round_hundredths q = z.
Proof.
  intros H. unfold Qeq in H. cbn in H. unfold round_hundredths.
  set (d := Zpos (Qden q)) in *.
  assert (Hd : (0 < d)%Z) by (unfold d; lia).
  assert (Hn : (Qnum q * 100 = z * d)%Z) by lia.
  rewrite Hn.
  destruct (Z.leb_spec 0 (z * d)) as [Hz|Hz].
  - replace (2 * (z * d) + d)%Z with (d + z * (2 * d))%Z by ring.
    rewrite Z.div_add by lia. rewrite Z.div_small by lia. ring.
  - replace (- 2 * (z * d) + d)%Z with (d + (- z) * (2 * d))%Z by ring.
    rewrite Z.div_add by lia. rewrite Z.div_small by lia. ring.
Qed.

(** C7 (counterexample): a prediction whose win probability is 0.555 is
    re-fetched with win probability 0.56: the column is [decimal(5, 2)]. *)
Lemma prediction_round_trip_rounds :
  exists row db',
    createPrediction empty_db (sample_insert (111#200)) = Ok (row, db') /\
    getPredictionByMatch db' "m1" = Some row /\
    p_winProbability row = 56%Z /\
    ~ (numeric_value (p_winProbability row) == 111#200)%Q.
Proof.
  eexists _, _. split; [vm_compute; reflexivity|].
  split; [vm_compute; reflexivity|]. split; [reflexivity|].
  vm_compute. discriminate.
Qed.

(** C7 (amended): after [createPrediction] succeeds in a store with no prior
    prediction for the match id, [getPredictionByMatch] returns the stored
    row: same predicted winner id, the same factor-analysis list (so of the
    same length), and the win probability rounded to two decimal places
    (the [decimal(5, 2)] column), which equals the given probability
    whenever it has at most two decimal places. *)
Theorem prediction_round_trip (db : Db) (ip : InsertPrediction)
    (row : PredictionRow) (db' : Db) :
  (forall r, In r (predictions db) -> p_matchId r <> ip_matchId ip) ->
  createPrediction db ip = Ok (row, db') ->
  getPredictionByMatch db' (ip_matchId ip) = Some row /\
  p_predictedWinnerId row = ip_predictedWinnerId ip /\
  p_factorAnalysis row = ip_factorAnalysis ip /\
  length (p_factorAnalysis row) = length (ip_factorAnalysis ip) /\
  p_winProbability row = round_hundredths (ip_winProbability ip) /\
  (forall z : Z, (ip_winProbability ip == inject_Z z / 100)%Q ->
     (numeric_value (p_winProbability row) == ip_winProbability ip)%Q).
Proof.
  intros Hfresh Hc. unfold createPrediction, numeric_5_2 in Hc.
  destruct (Z.ltb (Z.abs (round_hundredths (ip_winProbability ip))) 100000);
    [|discriminate Hc].
  destruct (Z.ltb (Z.abs (round_hundredths (ip_confidenceLevel ip))) 100000);
    [|discriminate Hc].
  cbn in Hc. injection Hc as <- <-.
  split; [|split; [reflexivity|split; [reflexivity|split; [reflexivity|split; [reflexivity|]]]]].
  - unfold getPredictionByMatch. cbn [predictions].
    apply find_app_fresh; [|apply String.eqb_refl].
    intros r Hr. apply String.eqb_neq. apply Hfresh. exact Hr.
  - intros z Hz. cbn [p_winProbability]. rewrite (round_hundredths_exact _ _ Hz).
    symmetry. exact Hz.
Qed.

Lemma prediction_round_trip_witness :
  exists row db',
    createPrediction empty_db (sample_insert (11#20)) = Ok (row, db') /\
    getPredictionByMatch db' "m1" = Some row /\
    (numeric_value (p_winProbability row) == 11#20)%Q.
Proof.
  eexists _, _. split; [vm_compute; reflexivity|].
  pose proof (prediction_round_trip empty_db (sample_insert (11#20)) _ _
                (fun r (Hr : In r []) => match Hr with end) eq_refl) as H.
  split; [exact (proj1 H)|].
  apply (proj2 (proj2 (proj2 (proj2 (proj2 H)))) 55%Z). reflexivity.
Defined.

(* ================================================================= *)
(** * Further properties of the orchestrator, the tasks and their helpers *)

(** Sequencing on the registry: a continuation that always rejects makes
    the whole computation reject. *)
Lemma reg_bind_throws {A B} (m : Reg A) (k : A -> Reg B) :
  (forall a ag, exists e, fst (k a ag) = Throw e) ->
  forall ag, exists e, fst (reg_bind m k ag) = Throw e.
Proof.
  intros Hk ag. unfold reg_bind. destruct (m ag) as [[a|e] ag'].
  - apply Hk.
  - now exists e.
Qed.

Lemma reg_bind_first_throws {A B} (m : Reg A) (k : A -> Reg B) :
  (forall ag, exists e, fst (m ag) = Throw e) ->
  forall ag, exists e, fst (reg_bind m k ag) = Throw e.
Proof.
  intros Hm ag. unfold reg_bind. destruct (Hm ag) as [e He].
  destruct (m ag) as [[a|e'] ag']; simpl in He; [discriminate|].
  now exists e'.
Qed.

Lemma contextual_group_rejects (exec : string -> TaskResult) (now : Z) ag :
  fst (promise_all
    [runAgentAnalysis now "News Monitor"
       (agent_task exec "contextualAgents" contextualAgents_methods "analyzeNews");
     runAgentAnalysis now "Data Gaps & Uncertainty Reporter"
       (agent_task exec "contextualAgents" contextualAgents_methods "analyzeDataGaps")] ag)
  = Throw "TypeError: contextualAgents.analyzeNews is not a function".
Proof. reflexivity. Qed.

Lemma runAgentAnalyses_rejects (exec : string -> TaskResult) (now : Z) ag :
  exists e, fst (runAgentAnalyses exec now ag) = Throw e.
Proof.
  revert ag. unfold runAgentAnalyses. cbv zeta.
  do 7 (apply reg_bind_throws; intros ? ?).
  apply reg_bind_first_throws. intros ag'.
  eexists. apply contextual_group_rejects.
Qed.

(** [synthesizePrediction] never uses the completion service: the member
    [generatePrediction] does not exist on [openAIService], the call throws a
    [TypeError], and the [catch] block returns the majority-vote fallback,
    whatever the service would have answered. *)
Theorem synthesizePrediction_always_fallback (player1 player2 : Player)
    (analysisResults : list (string * GroupValue)) (generatePrediction : Outcome AIResponse) :
  synthesizePrediction_call player1 player2 analysisResults generatePrediction
  = fallbackPrediction player1 player2 (compileFactorAnalyses analysisResults).
Proof. reflexivity. Qed.

(** The six tasks whose first step reads [storage.getPlayerMatches] or
    [storage.getMatches] always return their error record, whatever the
    storage holds and whatever the rest of their [try] block computes. *)
Theorem missing_storage_member_tasks_return_error_record
    (fetched : Outcome (list MatchRow))
    (rest_of_try : list MatchRow -> Outcome TaskSuccess) :
  analyzeScheduleBurden fetched rest_of_try = catch_record analyzeScheduleBurden_spec /\
  analyzeRecentMatchToll fetched rest_of_try = catch_record analyzeRecentMatchToll_spec /\
  analyzeAgeEndurance fetched rest_of_try = catch_record analyzeAgeEndurance_spec /\
  analyzeSurfaceSuitability fetched rest_of_try = catch_record analyzeSurfaceSuitability_spec /\
  analyzePlayingStyles fetched rest_of_try = catch_record analyzePlayingStyles_spec /\
  analyzeHeadToHead fetched rest_of_try = catch_record analyzeHeadToHead_spec.
Proof. repeat split. Qed.

(** The computation of [analyzeMatch] after its guard always rejects. *)
Lemma analyzeMatch_body_throws
    (players : Outcome (option Player * option Player)) (exec : string -> TaskResult)
    (now : Z) (generatePrediction : Outcome AIResponse) (stored : Outcome unit)
    (agents : gmap string AgentStatus) :
  exists e, fst (analyzeMatch_body players exec now generatePrediction stored agents) = Throw e.
Proof.
  unfold analyzeMatch_body. apply reg_bind_throws.
  intros [[player1|] [player2|]] ag; cbv beta iota;
    [apply reg_bind_first_throws, runAgentAnalyses_rejects
    | eexists; reflexivity ..].
Qed.

(** [analyzeMatch] never resolves: whatever the storage, the task results,
    the completion service and the registry, the computation after the
    in-flight guard rejects. *)
Theorem analyzeMatch_always_rejects
    (players : Outcome (option Player * option Player)) (exec : string -> TaskResult)
    (now : Z) (generatePrediction : Outcome AIResponse) (stored : Outcome unit)
    (agents : gmap string AgentStatus) :
  exists e, fst (analyzeMatch_body players exec now generatePrediction stored agents) = Throw e.
Proof. apply analyzeMatch_body_throws. Qed.

(** Registry after an [analyzeMatch] run on a freshly initialised registry,
    both players found: the run rejects with the [TypeError] of the missing
    member [contextualAgents.analyzeNews]; every registered agent was
    started once; the two contextual agents end in [error] and all the others
    in [active]. *)
Theorem analyzeMatch_registry_after_run (player1 player2 : Player)
    (exec : string -> TaskResult) (t0 now : Z) (generatePrediction : Outcome AIResponse)
    (stored : Outcome unit) :
  let '(outcome, agents) :=
    analyzeMatch_body (Ok (Some player1, Some player2)) exec now generatePrediction stored
      (initializeAgents t0) in
  outcome = Throw "TypeError: contextualAgents.analyzeNews is not a function" /\
  dom agents = dom (initializeAgents t0) /\
  Forall (fun '(n, ty) =>
    agents !! n = Some {| as_name := n; as_type := ty;
                          status := if String.eqb ty "contextual" then StatusError else Active;
                          lastActivity := now; totalAnalyses := 1 |}) agentDefinitions.
Proof.
  destruct (analyzeMatch_body _ _ _ _ _ _) as [outcome agents] eqn:E.
  pose proof (f_equal fst E) as Eo. pose proof (f_equal snd E) as Ea.
  cbn [fst snd] in Eo, Ea. clear E. subst outcome agents.
  split; [vm_compute; reflexivity|].
  split; [apply (bool_decide_eq_true_1 _); vm_compute; reflexivity|].
  unfold agentDefinitions. repeat (constructor; [vm_compute; reflexivity|]). constructor.
Qed.

(** The route [POST /api/predictions/analyze] composed with [analyzeMatch]
    never stores a prediction: the store is left as it was, and a JSON
    prediction is answered only when [forceRefresh] is falsy and a
    prediction for the match was already stored. *)
Theorem analyze_route_never_stores (db : Db) (matchId : option string)
    (forceRefresh match_found : bool)
    (players : Outcome (option Player * option Player)) (exec : string -> TaskResult)
    (now : Z) (generatePrediction : Outcome AIResponse) (stored : Outcome unit)
    (agents : gmap string AgentStatus) :
  let '(response, db') :=
    analyzePredictionRoute db matchId forceRefresh match_found
      (fst (analyzeMatch_body players exec now generatePrediction stored agents)) in
  db' = db /\
  (forall p, response = RespJson p ->
     forceRefresh = false /\
     exists m, matchId = Some m /\ getPredictionByMatch db m = Some p).
Proof.
  destruct (analyzeMatch_body_throws players exec now generatePrediction stored agents)
    as [e He].
  rewrite He. unfold analyzePredictionRoute.
  destruct matchId as [m|]; [|split; [reflexivity|discriminate]].
  destruct (String.eqb m ""); [split; [reflexivity|discriminate]|].
  destruct forceRefresh.
  - destruct match_found; simpl; split; (reflexivity || discriminate).
  - destruct (getPredictionByMatch db m) as [p|] eqn:Hp.
    + split; [reflexivity|]. intros p' Hp'. injection Hp' as <-. eauto.
    + destruct match_found; simpl; split; (reflexivity || discriminate).
Qed.

(** Comparisons respect the equality of numbers. *)
Lemma js_lt_compat (a a' b b' : Q) :
  (a == a')%Q -> (b == b')%Q -> js_lt a b = js_lt a' b'.
Proof.
  intros Ha Hb. unfold js_lt.
  destruct (Qlt_le_dec a b) as [H|H], (Qlt_le_dec a' b') as [H'|H']; try reflexivity.
  - exfalso. rewrite Ha, Hb in H. apply (Qlt_not_le _ _ H H').
  - exfalso. rewrite Ha, Hb in H. apply (Qlt_not_le _ _ H' H).
Qed.

Lemma js_gt_compat (a a' b b' : Q) :
  (a == a')%Q -> (b == b')%Q -> js_gt a b = js_gt a' b'.
Proof. intros. unfold js_gt. now apply js_lt_compat. Qed.

Lemma js_lt_true (a b : Q) : js_lt a b = true <-> (a < b)%Q.
Proof.
  unfold js_lt. destruct (Qlt_le_dec a b) as [H|H]; split; auto; try discriminate.
  intros H'. exfalso. apply (Qlt_not_le _ _ H' H).
Qed.

Lemma js_lt_false (a b : Q) : js_lt a b = false <-> (b <= a)%Q.
Proof.
  unfold js_lt. destruct (Qlt_le_dec a b) as [H|H]; split; auto; try discriminate.
  intros H'. exfalso. apply (Qlt_not_le _ _ H H').
Qed.

Lemma Qabs_sub_sym (a b : Q) : (Qabs (a - b) == Qabs (b - a))%Q.
Proof. rewrite Qabs_Qminus. apply Qeq_refl. Qed.

Lemma js_min_le_l (a b : Q) : (js_min a b <= a)%Q.
Proof. unfold js_min. destruct (Qlt_le_dec b a); [apply Qlt_le_weak; assumption | apply Qle_refl]. Qed.

Lemma js_min_ge (a b c : Q) : (c <= a)%Q -> (c <= b)%Q -> (c <= js_min a b)%Q.
Proof. unfold js_min. destruct (Qlt_le_dec b a); auto. Qed.

Lemma js_min_compat (a a' b b' : Q) :
  (a == a')%Q -> (b == b')%Q -> (js_min a b == js_min a' b')%Q.
Proof.
  intros Ha Hb. unfold js_min.
  destruct (Qlt_le_dec b a) as [H|H], (Qlt_le_dec b' a') as [H'|H']; auto.
  - exfalso. rewrite Ha, Hb in H. apply (Qlt_not_le _ _ H H').
  - exfalso. rewrite Ha, Hb in H. apply (Qlt_not_le _ _ H' H).
Qed.

(** The serve confidence takes one of four values, 0.5 + 0.15 per metric
    (first-serve win rate, service games held, ace rate) on which the
    players differ by more than 0.1, capped at 0.9; it is 0.9 exactly when
    they differ by more than 0.1 on every metric. It does not depend on the
    order of the two players. *)
Theorem serve_confidence_values (stats1 stats2 : ServeStats) :
  ((calculateServeConfidence stats1 stats2 == 1#2)%Q \/
   (calculateServeConfidence stats1 stats2 == 13#20)%Q \/
   (calculateServeConfidence stats1 stats2 == 4#5)%Q \/
   (calculateServeConfidence stats1 stats2 == 9#10)%Q) /\
  ((calculateServeConfidence stats1 stats2 == 9#10)%Q <->
   Forall (fun metric => (1#10 < Qabs (metric stats1 - metric stats2))%Q) serve_metrics) /\
  calculateServeConfidence stats1 stats2 = calculateServeConfidence stats2 stats1.
Proof.
  assert (Hsym : forall metric : ServeStats -> Q,
    js_gt (Qabs (metric stats2 - metric stats1)) (1#10) =
    js_gt (Qabs (metric stats1 - metric stats2)) (1#10)).
  { intros metric. apply js_gt_compat; [apply Qabs_sub_sym | reflexivity]. }
  assert (Hg : forall metric : ServeStats -> Q,
    js_gt (Qabs (metric stats1 - metric stats2)) (1#10) = true <->
    (1#10 < Qabs (metric stats1 - metric stats2))%Q).
  { intros metric. unfold js_gt. apply js_lt_true. }
  unfold calculateServeConfidence, serve_metrics. cbn [List.filter].
  rewrite (Hsym firstServeWinRate), (Hsym serviceGamesHeld), (Hsym aceRate).
  rewrite !List.Forall_cons_iff, <- !Hg.
  destruct (js_gt (Qabs (firstServeWinRate stats1 - firstServeWinRate stats2)) (1#10)),
    (js_gt (Qabs (serviceGamesHeld stats1 - serviceGamesHeld stats2)) (1#10)),
    (js_gt (Qabs (aceRate stats1 - aceRate stats2)) (1#10));
    vm_compute; (split; [|split; [|reflexivity]]);
    intuition (discriminate || auto).
Qed.

Lemma js_min_cases (a b : Q) : js_min a b = a /\ (a <= b)%Q \/ js_min a b = b /\ (b < a)%Q.
Proof. unfold js_min. destruct (Qlt_le_dec b a); auto. Qed.

Lemma Qabs_sub_nonneg (a b : Q) : (0 <= Qabs (a - b))%Q.
Proof. apply Qabs_nonneg. Qed.

(** The return, rally and pressure confidences lie between 0.5 and their
    caps (0.85, 0.8 and 0.85), and the trend confidence is 0.8 or 0.6; none
    depends on the order of the two players. *)
Theorem statistical_confidences_bounded_symmetric
    (r1 r2 : ReturnStats) (y1 y2 : RallyStats) (p1 p2 : PressureStats)
    (t1 t2 : PlayerTrends) :
  (1#2 <= calculateReturnConfidence r1 r2 <= 17#20)%Q /\
  (calculateReturnConfidence r1 r2 == calculateReturnConfidence r2 r1)%Q /\
  (1#2 <= calculateRallyConfidence y1 y2 <= 4#5)%Q /\
  (calculateRallyConfidence y1 y2 == calculateRallyConfidence y2 y1)%Q /\
  (1#2 <= calculatePressureConfidence p1 p2 <= 17#20)%Q /\
  (calculatePressureConfidence p1 p2 == calculatePressureConfidence p2 p1)%Q /\
  (calculateTrendConfidence t1 t2 = 8#10 \/ calculateTrendConfidence t1 t2 = 6#10) /\
  calculateTrendConfidence t1 t2 = calculateTrendConfidence t2 t1.
Proof.
  unfold calculateReturnConfidence, calculateRallyConfidence,
    calculatePressureConfidence, calculateTrendConfidence.
  pose proof (Qabs_sub_nonneg (breakPointsConverted r1) (breakPointsConverted r2)).
  pose proof (Qabs_sub_nonneg (winnersToErrors y1) (winnersToErrors y2)).
  pose proof (Qabs_sub_nonneg (tiebreakWinRate p1) (tiebreakWinRate p2)).
  split; [destruct (js_min_cases (85#100) ((1#2) + Qabs (breakPointsConverted r1 - breakPointsConverted r2)))
            as [[-> ?]|[-> ?]]; split; lra|].
  split; [apply js_min_compat; [reflexivity|]; rewrite Qabs_sub_sym; reflexivity|].
  split; [destruct (js_min_cases (8#10) ((1#2) + Qabs (winnersToErrors y1 - winnersToErrors y2) * (3#10)))
            as [[-> ?]|[-> ?]]; split; lra|].
  split; [apply js_min_compat; [reflexivity|]; rewrite Qabs_sub_sym; reflexivity|].
  split; [destruct (js_min_cases (85#100) ((1#2) + Qabs (tiebreakWinRate p1 - tiebreakWinRate p2) * (3#2)))
            as [[-> ?]|[-> ?]]; split; lra|].
  split; [apply js_min_compat; [reflexivity|]; rewrite Qabs_sub_sym; reflexivity|].
  split.
  - destruct (_ || _); [left|right]; reflexivity.
  - destruct (js_gt (winRateChange (recent t1)) (1#10)),
      (js_lt (winRateChange (recent t1)) (-1#10)),
      (js_gt (winRateChange (recent t2)) (1#10)),
      (js_lt (winRateChange (recent t2)) (-1#10)); reflexivity.
Qed.

Lemma medicalTimeouts_pos (fit : option string) (random : Q) :
  Z.ltb 0 (medicalTimeouts (getPlayerPhysicalStatus fit random)) = true <-> (1#2 <= random)%Q.
Proof.
  unfold getPlayerPhysicalStatus; cbn [medicalTimeouts]. rewrite Z.ltb_lt. split.
  - intros H. pose proof (Qfloor_le (random * 2)) as Hf.
    assert (H1 : (1 <= inject_Z (Qfloor (random * 2)))%Q).
    { change 1%Q with (inject_Z 1). rewrite <- Zle_Qle. lia. }
    assert (H2 : (1 <= random * 2)%Q) by (eapply Qle_trans; eassumption).
    lra.
  - intros H. assert (H2 : (1 <= random * 2)%Q) by lra.
    pose proof (Qfloor_resp_le 1 (random * 2) H2) as Hf.
    change (Qfloor 1) with 1%Z in Hf. lia.
Qed.

(** The injury and fitness monitor never reports the 0.9 confidence meant
    for players with injuries: [getPlayerPhysicalStatus] always gives an
    empty injury list. Its confidence is 0.75 or 0.5; when the completion
    call succeeds it is 0.75 exactly when one of the two random draws gives a
    medical timeout ([Math.random() >= 0.5]). *)
Theorem injury_monitor_confidence (fit1 fit2 : option string) (random1 random2 : Q)
    (reply : Outcome string) :
  let c := t_confidence (analyzeInjuryFitnessStatus fit1 fit2 random1 random2 reply) in
  c <> 9#10 /\ (c = 3#4 \/ c = 1#2) /\
  (forall aiAnalysis, reply = Ok aiAnalysis ->
     (c = 3#4 <-> (1#2 <= random1)%Q \/ (1#2 <= random2)%Q)).
Proof.
  pose proof (medicalTimeouts_pos fit1 random1) as E1.
  pose proof (medicalTimeouts_pos fit2 random2) as E2.
  unfold analyzeInjuryFitnessStatus, calculateFitnessConfidence.
  set (b1 := Z.ltb 0 (medicalTimeouts (getPlayerPhysicalStatus fit1 random1))) in *.
  set (b2 := Z.ltb 0 (medicalTimeouts (getPlayerPhysicalStatus fit2 random2))) in *.
  cbn [recentInjuries getPlayerPhysicalStatus length Nat.ltb orb].
  destruct reply as [aiAnalysis|e]; cbn [obind run_task t_confidence s_confidence].
  - destruct b1, b2; cbn [orb];
      (split; [discriminate|]); (split; [auto|]);
      intros ? _; intuition (discriminate || auto).
  - split; [discriminate|]. split; [auto|]. intros ? H; discriminate.
Qed.

(** The three branches of [advantage_bands] with their confidence ranges. *)
Lemma advantage_bands_cases (lo hi s1 s2 : Q) :
  let r := advantage_bands lo hi s1 s2 in
  (ac_advantage r = "none" /\ ac_confidence r = 1#2 /\ (Qabs (s1 - s2) < lo)%Q) \/
  ((ac_advantage r = "slight_player1" /\ (s2 < s1)%Q \/
    ac_advantage r = "slight_player2" /\ (s1 <= s2)%Q) /\
   (lo <= Qabs (s1 - s2) < hi)%Q /\ ac_confidence r = ((6#10) + Qabs (s1 - s2))%Q) \/
  ((ac_advantage r = "player1" /\ (s2 < s1)%Q \/
    ac_advantage r = "player2" /\ (s1 <= s2)%Q) /\
   (lo <= Qabs (s1 - s2))%Q /\ (hi <= Qabs (s1 - s2))%Q /\
   ac_confidence r = ((7#10) + js_min (Qabs (s1 - s2)) (3#10))%Q).
Proof.
  unfold advantage_bands. cbv zeta.
  destruct (js_lt (Qabs (s1 - s2)) lo) eqn:E1.
  - left. apply js_lt_true in E1. auto.
  - apply js_lt_false in E1. right.
    destruct (js_lt (Qabs (s1 - s2)) hi) eqn:E2.
    + apply js_lt_true in E2. left.
      unfold js_gt. destruct (js_lt s2 s1) eqn:E3;
        [apply js_lt_true in E3 | apply js_lt_false in E3]; simpl; auto.
    + apply js_lt_false in E2. right.
      unfold js_gt. destruct (js_lt s2 s1) eqn:E3;
        [apply js_lt_true in E3 | apply js_lt_false in E3]; simpl; auto.
Qed.

(** The recent-form and clutch helpers report one of three bands: no
    advantage with confidence 0.5, a slight advantage with confidence in
    [0.7, 0.8), or a clear advantage with confidence in [0.9, 1]. A
    confidence strictly between 0.5 and 0.7 or in [0.8, 0.9) never
    occurs. *)
Theorem form_and_clutch_confidence_bands
    (s1 s2 su1 su2 : RecentStats) (c1 c2 : ClutchStats) :
  Forall (fun r =>
    (ac_advantage r = "none" /\ ac_confidence r = 1#2) \/
    ((ac_advantage r = "slight_player1" \/ ac_advantage r = "slight_player2") /\
     (7#10 <= ac_confidence r < 4#5)%Q) \/
    ((ac_advantage r = "player1" \/ ac_advantage r = "player2") /\
     (9#10 <= ac_confidence r <= 1)%Q))
    [determineFormAdvantage s1 s2 su1 su2; determineClutchAdvantage c1 c2].
Proof.
  assert (H : forall x y : Q,
    let r := advantage_bands (1#10) (2#10) x y in
    (ac_advantage r = "none" /\ ac_confidence r = 1#2) \/
    ((ac_advantage r = "slight_player1" \/ ac_advantage r = "slight_player2") /\
     (7#10 <= ac_confidence r < 4#5)%Q) \/
    ((ac_advantage r = "player1" \/ ac_advantage r = "player2") /\
     (9#10 <= ac_confidence r <= 1)%Q)).
  { intros x y. cbv zeta.
    destruct (advantage_bands_cases (1#10) (2#10) x y)
      as [(Ha & Hc & _) | [([[Ha _]|[Ha _]] & Hd & Hc) | ([[Ha _]|[Ha _]] & Hd & Hd' & Hc)]];
      rewrite ?Hc.
    - left. auto.
    - right; left. split; [auto|]. lra.
    - right; left. split; [auto|]. lra.
    - right; right. split; [auto|].
      destruct (js_min_cases (Qabs (x - y)) (3#10)) as [[-> ?]|[-> ?]]; lra.
    - right; right. split; [auto|].
      destruct (js_min_cases (Qabs (x - y)) (3#10)) as [[-> ?]|[-> ?]]; lra. }
  constructor; [apply H|]. constructor; [apply H|]. constructor.
Qed.

(** The momentum helper's clear advantage always comes with confidence
    exactly 1.0: its threshold (0.3) equals the cap of the bonus
    [Math.min(difference, 0.3)]. A slight momentum advantage has confidence
    in [0.75, 0.9), no advantage 0.5. *)
Theorem momentum_clear_advantage_full_confidence (m1 m2 : Momentum) :
  let r := determineMomentumAdvantage m1 m2 in
  (ac_advantage r = "none" /\ ac_confidence r = 1#2) \/
  ((ac_advantage r = "slight_player1" \/ ac_advantage r = "slight_player2") /\
   (3#4 <= ac_confidence r < 9#10)%Q) \/
  ((ac_advantage r = "player1" \/ ac_advantage r = "player2") /\
   (ac_confidence r == 1)%Q).
Proof.
  unfold determineMomentumAdvantage. cbv zeta.
  set (x := scoreMomentum m1). set (y := scoreMomentum m2).
  destruct (advantage_bands_cases (15#100) (3#10) x y)
    as [(Ha & Hc & _) | [([[Ha _]|[Ha _]] & Hd & Hc) | ([[Ha _]|[Ha _]] & Hd & Hd' & Hc)]];
    rewrite ?Hc.
  - left. auto.
  - right; left. split; [auto|]. lra.
  - right; left. split; [auto|]. lra.
  - right; right. split; [auto|].
    destruct (js_min_cases (Qabs (x - y)) (3#10)) as [[-> ?]|[-> ?]]; lra.
  - right; right. split; [auto|].
    destruct (js_min_cases (Qabs (x - y)) (3#10)) as [[-> ?]|[-> ?]]; lra.
Qed.

Lemma advantage_bands_mirror (lo hi s1 s2 : Q) :
  (0 < lo)%Q ->
  let r := advantage_bands lo hi s1 s2 in
  let r' := advantage_bands lo hi s2 s1 in
  ac_advantage r' = mirror_advantage (ac_advantage r) /\
  ac_winner r' = mirror_winner (ac_winner r) /\
  (ac_confidence r' == ac_confidence r)%Q.
Proof.
  intros Hlo. unfold advantage_bands. cbv zeta.
  assert (Hd : (Qabs (s2 - s1) == Qabs (s1 - s2))%Q) by apply Qabs_sub_sym.
  rewrite (js_lt_compat _ _ lo lo Hd (Qeq_refl _)).
  rewrite (js_lt_compat _ _ hi hi Hd (Qeq_refl _)).
  destruct (js_lt (Qabs (s1 - s2)) lo) eqn:E1; [split; [reflexivity|split; reflexivity]|].
  apply js_lt_false in E1.
  assert (Hne : js_gt s2 s1 = negb (js_gt s1 s2)).
  { unfold js_gt.
    destruct (js_lt s2 s1) eqn:A; [apply js_lt_true in A | apply js_lt_false in A];
    destruct (js_lt s1 s2) eqn:B; [apply js_lt_true in B | apply js_lt_false in B
      | apply js_lt_true in B | apply js_lt_false in B]; try reflexivity.
    - exfalso. lra.
    - exfalso. assert (s1 == s2)%Q as Heq by lra.
      assert (Qabs (s1 - s2) <= 0)%Q by (apply Qabs_Qle_condition; lra).
      lra. }
  rewrite Hne.
  destruct (js_lt (Qabs (s1 - s2)) hi), (js_gt s1 s2); simpl;
    (split; [reflexivity|]); (split; [reflexivity|]);
    [rewrite Hd | rewrite Hd | rewrite (js_min_compat _ _ (3#10) (3#10) Hd (Qeq_refl _))
    | rewrite (js_min_compat _ _ (3#10) (3#10) Hd (Qeq_refl _))]; reflexivity.
Qed.

(** The three advantage helpers are fair: exchanging the two players
    exchanges [player1] and [player2] (and their [slight_] forms) in the
    result, and leaves the confidence unchanged. *)
Theorem advantage_helpers_mirror (s1 s2 su1 su2 : RecentStats) (m1 m2 : Momentum)
    (c1 c2 : ClutchStats) :
  Forall (fun '(r, r') =>
    ac_advantage r' = mirror_advantage (ac_advantage r) /\
    ac_winner r' = mirror_winner (ac_winner r) /\
    (ac_confidence r' == ac_confidence r)%Q)
  [(determineFormAdvantage s1 s2 su1 su2, determineFormAdvantage s2 s1 su2 su1);
   (determineMomentumAdvantage m1 m2, determineMomentumAdvantage m2 m1);
   (determineClutchAdvantage c1 c2, determineClutchAdvantage c2 c1)].
Proof.
  repeat constructor; apply advantage_bands_mirror; reflexivity.
Qed.

Lemma insert_desc_Forall (P : MatchRow -> Prop) x l :
  P x -> Forall P l -> Forall P (insert_desc x l).
Proof.
  intros Hx Hl. induction Hl as [|y l Hy Hl IH]; simpl; [auto|].
  destruct (Z.ltb (time_key y) (time_key x)); auto.
Qed.

Lemma sort_desc_Forall (P : MatchRow -> Prop) l : Forall P l -> Forall P (sort_desc l).
Proof.
  induction 1; simpl; [constructor|]. apply insert_desc_Forall; auto.
Qed.

Lemma insert_desc_length x l : length (insert_desc x l) = S (length l).
Proof. induction l as [|y l IH]; simpl; [reflexivity|]. destruct (Z.ltb _ _); simpl; lia. Qed.

Lemma sort_desc_length l : length (sort_desc l) = length l.
Proof. induction l; simpl; [reflexivity|]. rewrite insert_desc_length. lia. Qed.

Lemma firstn_Forall {A} (P : A -> Prop) n l : Forall P l -> Forall P (firstn n l).
Proof.
  revert l. induction n as [|n IH]; intros l Hl; simpl; [constructor|].
  destruct Hl; constructor; auto.
Qed.

Lemma streak_loop_type l playerId n ty :
  n <> 0%nat -> snd (streak_loop l playerId n ty) = ty.
Proof.
  revert n. induction l as [|m l IH]; intros n Hn; simpl; [reflexivity|].
  destruct (Nat.eqb n 0) eqn:E; [apply Nat.eqb_eq in E; contradiction|].
  destruct (_ || _); [apply IH; lia|reflexivity].
Qed.

Lemma streak_loop_wins l playerId n :
  n <> 0%nat -> Forall (fun m => won_by m playerId = true) l ->
  streak_loop l playerId n "win" = ((n + length l)%nat, "win").
Proof.
  revert n. induction l as [|m l IH]; intros n Hn Hl; simpl; [f_equal; lia|].
  inversion Hl as [|? ? Hm Hl']; subst.
  destruct (Nat.eqb n 0) eqn:E; [apply Nat.eqb_eq in E; contradiction|].
  rewrite Hm. simpl. rewrite IH by (auto || lia). f_equal. lia.
Qed.

Lemma ratio_self (k : nat) : k <> 0%nat ->
  (inject_Z (Z.of_nat k) / inject_Z (Z.of_nat k) == 1)%Q.
Proof.
  intros Hk. unfold Qdiv. apply Qmult_inv_r. intros H. apply Hk.
  unfold Qeq in H. simpl in H. lia.
Qed.

Lemma score_all_wins (ms : list MatchRow) (playerId : string) :
  (4 <= length ms)%nat -> Forall (fun m => won_by m playerId = true) ms ->
  (scoreMomentum (calculateMomentum ms playerId) == 1)%Q.
Proof.
  intros Hlen Hw. unfold calculateMomentum.
  destruct (Nat.eqb (length ms) 0) eqn:E0; [apply Nat.eqb_eq in E0; lia|].
  pose proof (sort_desc_Forall _ _ Hw) as Hs.
  pose proof (sort_desc_length ms) as Hl.
  destruct (sort_desc ms) as [|m0 rest] eqn:Es; [simpl in Hl; lia|].
  inversion Hs as [|? ? Hm0 Hrest]; subst.
  simpl streak_loop. rewrite Hm0. simpl Nat.eqb. cbv iota beta.
  rewrite (streak_loop_wins rest playerId 1 ltac:(lia) Hrest).
  set (rr := map (fun m => if won_by m playerId then 1%nat else 0%nat)
                 (firstn 5 (m0 :: rest))).
  assert (Hrr : Forall (fun r => r = 1%nat) rr).
  { unfold rr. apply List.Forall_map. eapply List.Forall_impl; [|apply firstn_Forall, Hs].
    intros m Hm. simpl in Hm. now rewrite Hm. }
  assert (Hf : List.filter (fun r => Nat.eqb r 1) rr = rr).
  { clear -Hrr. induction Hrr as [|r l Hr _ IH]; simpl; [reflexivity|].
    subst. simpl. now rewrite IH. }
  assert (Hlen_rr : length rr <> 0%nat) by (unfold rr; simpl; lia).
  unfold scoreMomentum. cbn [consistency currentStreak streakType]. rewrite Hf.
  simpl String.eqb. cbv iota beta.
  set (c := (inject_Z (Z.of_nat (length rr)) / inject_Z (Z.of_nat (length rr)))%Q).
  assert (Hc : (c == 1)%Q) by apply ratio_self, Hlen_rr.
  assert (Hn : (4 <= Z.of_nat (1 + length rest))%Z) by (simpl in Hl; lia).
  set (b := js_min (inject_Z (Z.of_nat (1 + length rest)) * (1#10)) (4#10)).
  assert (Hb : (b == 4#10)%Q).
  { unfold b. rewrite Zle_Qle in Hn.
    destruct (js_min_cases (inject_Z (Z.of_nat (1 + length rest)) * (1#10)) (4#10))
      as [[-> H]|[-> H]]; [|reflexivity].
    change (inject_Z 4) with 4%Q in Hn. lra. }
  destruct (js_min_cases 1 (c * (6#10) + b)) as [[-> H]|[-> H]];
    [| exfalso; lra].
  unfold js_max. destruct (Qlt_le_dec 0 1); [reflexivity | exfalso; lra].
Qed.

Lemma score_no_wins (ms : list MatchRow) (playerId : string) :
  Forall (fun m => won_by m playerId = false) ms ->
  scoreMomentum (calculateMomentum ms playerId) = 0%Q.
Proof.
  intros Hw. unfold calculateMomentum.
  destruct (Nat.eqb (length ms) 0) eqn:E0.
  - reflexivity.
  - apply Nat.eqb_neq in E0.
    pose proof (sort_desc_Forall _ _ Hw) as Hs.
    pose proof (sort_desc_length ms) as Hl.
    destruct (sort_desc ms) as [|m0 rest] eqn:Es; [simpl in Hl; lia|].
    inversion Hs as [|? ? Hm0 Hrest]; subst.
    simpl streak_loop. rewrite Hm0. simpl Nat.eqb. cbv iota beta.
    pose proof (streak_loop_type rest playerId 1 "loss" ltac:(lia)) as Ht.
    destruct (streak_loop rest playerId 1 "loss") as [cs st]. simpl in Ht. subst st.
    set (rr := map (fun m => if won_by m playerId then 1%nat else 0%nat)
                   (firstn 5 (m0 :: rest))).
    assert (Hrr : Forall (fun r => r = 0%nat) rr).
    { unfold rr. apply List.Forall_map. eapply List.Forall_impl; [|apply firstn_Forall, Hs].
      intros m Hm. simpl in Hm. now rewrite Hm. }
    assert (Hf : List.filter (fun r => Nat.eqb r 1) rr = []).
    { clear -Hrr. induction Hrr as [|r l Hr _ IH]; simpl; [reflexivity|]. now subst. }
    unfold scoreMomentum. cbn [consistency currentStreak streakType]. rewrite Hf.
    simpl String.eqb. cbv iota beta.
    set (b := js_min (inject_Z (Z.of_nat cs) * (1#10)) (4#10)).
    assert (Hb : (0 <= b)%Q).
    { unfold b. apply js_min_ge; [|discriminate].
      apply Qmult_le_0_compat; [|discriminate].
      change 0%Q with (inject_Z 0). rewrite <- Zle_Qle. lia. }
    change (inject_Z (Z.of_nat (length (@nil nat)))) with 0%Q.
    set (v := (0 / inject_Z (Z.of_nat (length rr)) * (6#10) - b)%Q).
    assert (Hv : (v <= 0)%Q).
    { unfold v. unfold Qdiv. rewrite Qmult_0_l, Qmult_0_l. lra. }
    destruct (js_min_cases 1 v) as [[-> H]|[-> H]]; [exfalso; lra|].
    unfold js_max. destruct (Qlt_le_dec 0 v); [exfalso; lra | reflexivity].
Qed.

(** Composition of the momentum helpers: when player 1 won every one of at
    least four recent matches and player 2 won none of theirs (or has none),
    the momentum analysis gives a clear advantage to player 1 with
    confidence 1.0. *)
Theorem momentum_sweep_gives_full_confidence (ms1 ms2 : list MatchRow)
    (player1Id player2Id : string)
    (Hlen : (4 <= length ms1)%nat)
    (Hwins : Forall (fun m => won_by m player1Id = true) ms1)
    (Hlosses : Forall (fun m => won_by m player2Id = false) ms2) :
  let r := determineMomentumAdvantage (calculateMomentum ms1 player1Id)
                                      (calculateMomentum ms2 player2Id) in
  ac_advantage r = "player1" /\ ac_winner r = "Player 1" /\ (ac_confidence r == 1)%Q.
Proof.
  pose proof (score_all_wins ms1 player1Id Hlen Hwins) as H1.
  pose proof (score_no_wins ms2 player2Id Hlosses) as H2.
  unfold determineMomentumAdvantage. cbv zeta. rewrite H2.
  set (x := scoreMomentum (calculateMomentum ms1 player1Id)) in *.
  assert (Hd : (Qabs (x - 0) == 1)%Q).
  { rewrite H1. reflexivity. }
  unfold advantage_bands. cbv zeta.
  rewrite (js_lt_compat _ _ (15#100) (15#100) Hd (Qeq_refl _)).
  rewrite (js_lt_compat _ _ (3#10) (3#10) Hd (Qeq_refl _)).
  assert (Hg : js_gt x 0 = true).
  { unfold js_gt. apply js_lt_true. rewrite H1. reflexivity. }
  rewrite Hg. simpl. split; [reflexivity|]. split; [reflexivity|].
  rewrite (js_min_compat _ _ (3#10) (3#10) Hd (Qeq_refl _)). reflexivity.
Qed.

Lemma filter_length_le {A} (f : A -> bool) (l : list A) : (length (List.filter f l) <= length l)%nat.
Proof. induction l as [|x l IH]; simpl; [lia|]. destruct (f x); simpl; lia. Qed.

Lemma ratio_bounds (w n : nat) : (w <= n)%nat -> n <> 0%nat ->
  (0 <= inject_Z (Z.of_nat w) / inject_Z (Z.of_nat n) <= 1)%Q.
Proof.
  intros Hw Hn.
  assert (Hpos : (0 < inject_Z (Z.of_nat n))%Q).
  { change 0%Q with (inject_Z 0). rewrite <- Zlt_Qlt. lia. }
  split.
  - apply Qle_shift_div_l; [assumption|]. rewrite Qmult_0_l.
    change 0%Q with (inject_Z 0). rewrite <- Zle_Qle. lia.
  - apply Qle_shift_div_r; [assumption|]. rewrite Qmult_1_l.
    rewrite <- Zle_Qle. lia.
Qed.

(** [calculateRecentStats] keeps its counts consistent: wins and losses add
    up to the number of matches it was given, and the win rate lies in
    [0, 1] (0 for an empty list). *)
Theorem recentStats_consistent (matches : list MatchRow) (playerId : string) :
  let s := calculateRecentStats matches playerId in
  (rs_wins s + rs_losses s)%nat = rs_totalMatches s /\
  rs_totalMatches s = length matches /\
  (0 <= rs_winRate s <= 1)%Q.
Proof.
  unfold calculateRecentStats.
  destruct (Nat.eqb (length matches) 0) eqn:E.
  - apply Nat.eqb_eq in E. simpl. rewrite E. repeat split; discriminate.
  - apply Nat.eqb_neq in E. simpl.
    pose proof (filter_length_le (fun m => won_by m playerId) matches).
    repeat split; [lia | apply ratio_bounds; assumption ..].
Qed.

Lemma advantage_bands_compat (lo hi x x' y y' : Q) :
  (x == x')%Q -> (y == y')%Q ->
  ac_advantage (advantage_bands lo hi x y) = ac_advantage (advantage_bands lo hi x' y') /\
  ac_winner (advantage_bands lo hi x y) = ac_winner (advantage_bands lo hi x' y') /\
  (ac_confidence (advantage_bands lo hi x y) == ac_confidence (advantage_bands lo hi x' y'))%Q.
Proof.
  intros Hx Hy. unfold advantage_bands. cbv zeta.
  assert (Hd : (Qabs (x - y) == Qabs (x' - y'))%Q) by (rewrite Hx, Hy; reflexivity).
  rewrite (js_lt_compat _ _ lo lo Hd (Qeq_refl _)).
  rewrite (js_lt_compat _ _ hi hi Hd (Qeq_refl _)).
  rewrite (js_gt_compat _ _ _ _ Hx Hy).
  destruct (js_lt (Qabs (x' - y')) lo), (js_lt (Qabs (x' - y')) hi), (js_gt x' y'); simpl;
    repeat split; try reflexivity; try (rewrite Hd; reflexivity);
    rewrite (js_min_compat _ _ (3#10) (3#10) Hd (Qeq_refl _)); reflexivity.
Qed.

Lemma filter_all_true {A} (f : A -> bool) (l : list A) :
  Forall (fun x => f x = true) l -> List.filter f l = l.
Proof. induction 1 as [|x l Hx _ IH]; simpl; [reflexivity|]. now rewrite Hx, IH. Qed.

(** On the rows [storage.getRecentMatches(id, match.surface, 15)] returns,
    all on the match's surface, the surface-specific statistics are the
    overall ones: the 0.6/0.4 weighting of overall and surface form is void
    and the recent-form advantage is decided by the two overall win rates
    alone. *)
Theorem recent_form_ignores_surface_weighting
    (ms1 ms2 : list MatchRow) (player1Id player2Id surface : string)
    (H1 : Forall (fun m => mr_surface m = surface) ms1)
    (H2 : Forall (fun m => mr_surface m = surface) ms2) :
  let r := recentMatches_advantage ms1 ms2 player1Id player2Id surface in
  let r' := advantage_bands (1#10) (2#10)
              (rs_winRate (calculateRecentStats ms1 player1Id))
              (rs_winRate (calculateRecentStats ms2 player2Id)) in
  ac_advantage r = ac_advantage r' /\ ac_winner r = ac_winner r' /\
  (ac_confidence r == ac_confidence r')%Q.
Proof.
  assert (Hs : forall ms pid, Forall (fun m => mr_surface m = surface) ms ->
            calculateSurfaceStats ms pid surface = calculateRecentStats ms pid).
  { intros ms pid H. unfold calculateSurfaceStats. rewrite filter_all_true; [reflexivity|].
    eapply List.Forall_impl; [|exact H]. intros m Hm. simpl. rewrite Hm. apply String.eqb_refl. }
  unfold recentMatches_advantage, determineFormAdvantage. cbv zeta.
  rewrite (Hs ms1 player1Id H1), (Hs ms2 player2Id H2).
  apply advantage_bands_compat; ring.
Qed.

Lemma split_on_length (c : ascii) (s : string) :
  length (split_on c s) = S (count_char c s).
Proof.
  induction s as [|a s IH]; simpl; [reflexivity|].
  destruct (Ascii.eqb a c); simpl; [now rewrite IH|].
  destruct (split_on c s) as [|w ws]; simpl in *; lia.
Qed.

Lemma clutch_fold_le (ms : list MatchRow) (playerId : string) (w t : nat) :
  (w <= t)%nat ->
  let '(w', t') := fold_left (fun '(w, t) m =>
      if str_truthy (mr_score m) && isClutchMatch (str_or (mr_score m) "") then
        (if won_by m playerId then S w else w, S t)
      else (w, t)) ms (w, t) in (w' <= t')%nat.
Proof.
  revert w t. induction ms as [|m ms IH]; intros w t Hwt; simpl; [assumption|].
  destruct (_ && _); [|apply IH; assumption].
  apply IH. destruct (won_by m playerId); lia.
Qed.

(** A score counts as a clutch match exactly when it contains "7-6" or has
    at least two commas (three or more sets); the share of clutch matches a
    player won lies in [0, 1]. *)
Theorem clutch_moments_spec (score : string) (ms : list MatchRow) (playerId : string) :
  isClutchMatch score = includes "7-6" score || Nat.leb 2 (count_char "," score) /\
  (0 <= extractClutchMoments ms playerId <= 1)%Q.
Proof.
  split.
  - unfold isClutchMatch. rewrite split_on_length. reflexivity.
  - unfold extractClutchMoments.
    pose proof (clutch_fold_le ms playerId 0 0 (le_n 0)) as H.
    destruct (fold_left _ ms (0%nat, 0%nat)) as [w t].
    destruct (Nat.ltb 0 t) eqn:E.
    + apply Nat.ltb_lt in E. apply ratio_bounds; lia.
    + split; discriminate.
Qed.


Lemma h2h_winner_nonempty (m : MatchRow) (player1Id : string) :
  h2h_winner m player1Id = "player1" \/ h2h_winner m player1Id = "player2".
Proof.
  unfold h2h_winner. destruct (mr_winner m) as [w|];
    [destruct (String.eqb w "player1")|];
    repeat match goal with |- context [if ?b then _ else _] => destruct b end; auto.
Qed.

Lemma streak_scan_same (l : list MatchRow) (player1Id w : string) (n : nat) acc :
  Forall (fun m => h2h_winner m player1Id = w) l ->
  streak_scan l player1Id (w, n) acc = acc.
Proof.
  revert n. induction l as [|m l IH]; intros n Hl; simpl; [reflexivity|].
  apply List.Forall_cons_iff in Hl as [Hm Hl'].
  rewrite Hm, String.eqb_refl. simpl. apply IH, Hl'.
Qed.

(** [analyzePsychologicalFactors] never reports a dominance of player 2:
    the rate it reads, [stats.player2WinRate], is not computed by
    [calculateH2HStats], and a comparison with [undefined] is false.
    Moreover a run still going on at the last meeting is never recorded:
    when the same player won every meeting, no streak is reported, however
    many meetings there were. *)
Theorem psychology_never_player2_and_last_streak_dropped
    (matches : list MatchRow) (player1Id player2Id w : string) :
  dominance (analyzePsychologicalFactors matches player1Id player2Id) <> "player2" /\
  (Forall (fun m => h2h_winner m player1Id = w) matches ->
   streaks (analyzePsychologicalFactors matches player1Id player2Id) = []).
Proof.
  unfold analyzePsychologicalFactors. split.
  - destruct (Nat.eqb (length matches) 0); simpl; [discriminate|].
    destruct (_ && _); simpl; discriminate.
  - intros Hall. destruct (Nat.eqb (length matches) 0); [reflexivity|]. simpl.
    destruct matches as [|m l]; [reflexivity|]. simpl.
    apply List.Forall_cons_iff in Hall as [Hm Hl].
    destruct (h2h_winner_nonempty m player1Id) as [Hw|Hw]; rewrite Hw; simpl;
      rewrite Hw in Hm; subst w; apply streak_scan_same; exact Hl.
Qed.

(** The head-to-head confidence computed from [calculateH2HStats] is 0 when
    the players never met, and otherwise lies in [0.2, 1]. *)
Theorem h2h_confidence_range (matches : list MatchRow) (player1Id player2Id : string)
    (surface : H2HStats) :
  let c := calculateH2HConfidence (calculateH2HStats matches player1Id player2Id) surface in
  (matches = [] -> c = 0%Q) /\ (matches <> [] -> (1#5 <= c <= 1)%Q).
Proof.
  unfold calculateH2HConfidence, calculateH2HStats. cbn [h2h_totalMatches player1WinRate].
  split.
  - intros ->. reflexivity.
  - intros Hne. destruct matches as [|m l]; [contradiction|].
    set (f := fun m0 : MatchRow =>
       (String.eqb (mr_player1Id m0) player1Id && is_winner m0 "player1") ||
       (String.eqb (mr_player2Id m0) player1Id && is_winner m0 "player2")).
    set (w := length (List.filter f (m :: l))).
    pose proof (filter_length_le f (m :: l)) as Hw. fold w in Hw.
    change (length (m :: l)) with (S (length l)) in *.
    cbv zeta. cbn [Nat.eqb Nat.ltb Nat.leb].
    destruct (ratio_bounds w (S (length l)) Hw ltac:(lia)) as [R0 R1].
    set (r := (inject_Z (Z.of_nat w) / inject_Z (Z.of_nat (S (length l))))%Q) in *.
    assert (Ha : (0 <= Qabs (r - (1#2)) * 2 <= 1)%Q).
    { apply Qabs_case; intros; lra. }
    set (s := js_min 1 (inject_Z (Z.of_nat (S (length l))) / 10)).
    assert (Hs : (0 <= s <= 1)%Q).
    { split; [apply js_min_ge; [discriminate|] | apply js_min_le_l].
      apply Qle_shift_div_l; [reflexivity|]. rewrite Qmult_0_l.
      change 0%Q with (inject_Z 0). rewrite <- Zle_Qle. lia. }
    set (a := (Qabs (r - (1#2)) * 2)%Q) in *.
    assert (0 <= a * s <= 1)%Q by nra.
    lra.
Qed.

Lemma registry_step_lookup (agents : gmap string AgentStatus) (ev : RegistryEvent)
    (n : string) :
  match agents !! n with
  | Some a => exists a', registry_step agents ev !! n = Some a' /\
               as_name a' = as_name a /\ as_type a' = as_type a /\
               totalAnalyses a' = (totalAnalyses a +
                 match ev with TaskStarts m _ => if String.eqb m n then 1 else 0
                             | TaskSettles _ _ _ => 0 end)%nat
  | None => registry_step agents ev !! n = None
  end.
Proof.
  destruct ev as [m t|m ok t]; cbn [registry_step];
    unfold runAgentAnalysis_start, runAgentAnalysis_settle, updateAgentStatus;
    destruct (String.eqb_spec m n) as [<-|Hne].
  - destruct (agents !! m) as [a|] eqn:Ha; [|rewrite Ha; reflexivity].
    eexists. rewrite lookup_insert_eq.
    split; [reflexivity|]. cbn. repeat split. lia.
  - destruct (agents !! m) as [b|] eqn:Hb; [rewrite lookup_insert_ne by exact Hne|];
      (destruct (agents !! n) as [a|]; [|reflexivity]);
      eexists; (split; [reflexivity|]); repeat split; lia.
  - destruct (agents !! m) as [a|] eqn:Ha; [|rewrite Ha; reflexivity].
    eexists. rewrite lookup_insert_eq.
    split; [reflexivity|]. cbn. repeat split. destruct ok; lia.
  - destruct (agents !! m) as [b|] eqn:Hb; [rewrite lookup_insert_ne by exact Hne|];
      (destruct (agents !! n) as [a|]; [|reflexivity]);
      eexists; (split; [reflexivity|]); repeat split; lia.
Qed.

Lemma registry_run_lookup (evs : list RegistryEvent) (agents : gmap string AgentStatus)
    (n : string) :
  match agents !! n with
  | Some a => exists a', fold_left registry_step evs agents !! n = Some a' /\
               as_name a' = as_name a /\ as_type a' = as_type a /\
               totalAnalyses a' = (totalAnalyses a + starts_of n evs)%nat
  | None => fold_left registry_step evs agents !! n = None
  end.
Proof.
  revert agents. induction evs as [|ev evs IH]; intros agents; simpl.
  - destruct (agents !! n) as [a|]; [|reflexivity].
    exists a. unfold starts_of. simpl. repeat split. lia.
  - pose proof (registry_step_lookup agents ev n) as Hs.
    specialize (IH (registry_step agents ev)).
    destruct (agents !! n) as [a|].
    + destruct Hs as (a1 & H1 & N1 & T1 & C1). rewrite H1 in IH.
      destruct IH as (a2 & H2 & N2 & T2 & C2).
      exists a2. split; [exact H2|]. split; [congruence|]. split; [congruence|].
      rewrite C2, C1. unfold starts_of. simpl.
      destruct ev as [m t|m ok t]; simpl; [destruct (String.eqb m n)|]; simpl; lia.
    + rewrite Hs in IH. exact IH.
Qed.

Lemma initializeAgents_registered (t0 : Z) (n ty : string) :
  In (n, ty) agentDefinitions ->
  initializeAgents t0 !! n = Some {| as_name := n; as_type := ty; status := Idle;
                                      lastActivity := t0; totalAnalyses := 0 |}.
Proof.
  assert (H : Forall (fun '(n, ty) =>
    initializeAgents t0 !! n = Some {| as_name := n; as_type := ty; status := Idle;
                                        lastActivity := t0; totalAnalyses := 0 |})
    agentDefinitions).
  { unfold agentDefinitions. repeat (constructor; [vm_compute; reflexivity|]). constructor. }
  rewrite List.Forall_forall in H. intros Hin. exact (H _ Hin).
Qed.

Lemma fold_insert_absent (defs : list (string * string)) (m : gmap string AgentStatus)
    (t0 : Z) (n : string) :
  ~ In n (map fst defs) -> m !! n = None ->
  fold_left (fun m '(n, t) =>
    <[n := {| as_name := n; as_type := t; status := Idle;
              lastActivity := t0; totalAnalyses := 0 |}]> m) defs m !! n = None.
Proof.
  revert m. induction defs as [|[k t] defs IH]; intros m Hn Hm; simpl; [exact Hm|].
  simpl in Hn. apply IH; [tauto|]. rewrite lookup_insert_ne; [exact Hm|]. intros ->. tauto.
Qed.

(** The registry counts the runs started: along any sequence of starts and
    settlements, each registered agent keeps its name and type and its
    [totalAnalyses] equals the number of starts for its name; a name that
    [initializeAgents] did not register never appears. *)
Theorem registry_counts_task_starts (evs : list RegistryEvent) (t0 : Z) (n : string) :
  (forall ty, In (n, ty) agentDefinitions ->
     exists a, fold_left registry_step evs (initializeAgents t0) !! n = Some a /\
       as_name a = n /\ as_type a = ty /\ totalAnalyses a = starts_of n evs) /\
  (~ In n (map fst agentDefinitions) ->
     fold_left registry_step evs (initializeAgents t0) !! n = None).
Proof.
  split.
  - intros ty Hin. pose proof (registry_run_lookup evs (initializeAgents t0) n) as H.
    rewrite (initializeAgents_registered t0 n ty Hin) in H.
    destruct H as (a & Ha & N & T & C). exists a. simpl in *. auto.
  - intros Hn. pose proof (registry_run_lookup evs (initializeAgents t0) n) as H.
    assert (E : initializeAgents t0 !! n = None)
      by (apply fold_insert_absent; [exact Hn | apply lookup_empty]).
    rewrite E in H. exact H.
Qed.



(** Witness: four wins in a row against two losses. *)
Lemma momentum_sweep_gives_full_confidence_witness :
  (4 <= length sweep_rows)%nat /\
  Forall (fun m => won_by m "p1" = true) sweep_rows /\
  Forall (fun m => won_by m "p2" = false) lost_rows /\
  (let r := determineMomentumAdvantage (calculateMomentum sweep_rows "p1")
                                       (calculateMomentum lost_rows "p2") in
   ac_advantage r = "player1" /\ ac_winner r = "Player 1" /\ (ac_confidence r == 1)%Q).
Proof.
  assert (H1 : (4 <= length sweep_rows)%nat) by (simpl; lia).
  assert (H2 : Forall (fun m => won_by m "p1" = true) sweep_rows) by repeat constructor.
  assert (H3 : Forall (fun m => won_by m "p2" = false) lost_rows) by repeat constructor.
  split; [exact H1|]. split; [exact H2|]. split; [exact H3|].
  exact (momentum_sweep_gives_full_confidence sweep_rows lost_rows "p1" "p2" H1 H2 H3).
Defined.

(** Witness: rows all on hard courts. *)
Lemma recent_form_ignores_surface_weighting_witness :
  Forall (fun m => mr_surface m = "hard") sweep_rows /\
  Forall (fun m => mr_surface m = "hard") lost_rows /\
  (let r := recentMatches_advantage sweep_rows lost_rows "p1" "p2" "hard" in
   let r' := advantage_bands (1#10) (2#10)
               (rs_winRate (calculateRecentStats sweep_rows "p1"))
               (rs_winRate (calculateRecentStats lost_rows "p2")) in
   ac_advantage r = ac_advantage r' /\ ac_winner r = ac_winner r' /\
   (ac_confidence r == ac_confidence r')%Q).
Proof.
  assert (H1 : Forall (fun m => mr_surface m = "hard") sweep_rows) by repeat constructor.
  assert (H2 : Forall (fun m => mr_surface m = "hard") lost_rows) by repeat constructor.
  split; [exact H1|]. split; [exact H2|].
  exact (recent_form_ignores_surface_weighting sweep_rows lost_rows "p1" "p2" "hard" H1 H2).
Defined.

